(** * BlindDate AI mobile client: match lifecycle, session and store

    A shallow embedding of the TypeScript client (mock API, API service,
    profile-reveal screen, compatibility meter, WebSocket service, blind-chat
    message handler and the user store) together with the properties the
    specification states about them.

    Conventions.
    - A JS [string] is a [string]; [string | null] is [option string].
    - An [async] function is modelled by its result; [await delay(ms)] only
      postpones it and is left out.
    - The score the compatibility meter computes with is an IEEE double, a
      primitive [float]; a score that is only carried in a record is a
      rational [Q].
    - Side effects that leave the component (console, timers, navigation,
      sockets, handler calls) are collected in a trace, oldest first. *)

From Stdlib Require Import PrimFloat.
From Stdlib Require SpecFloat FloatOps.
From Stdlib Require Import QArith Qround.
From stdpp Require Import gmap strings list pretty.

Local Open Scope string_scope.
Set Warnings "-register-all".
Set Warnings "-inexact-float".

(** ** Shared types ([types/index.ts]) *)

(** [type Decision = 'continue' | 'pass'] *)
Inductive Decision := Continue | Pass.

Definition decision_string (d : Decision) : string :=
  match d with Continue => "continue" | Pass => "pass" end.

(** [interface ApiResponse<T> { data?: T; error?: string }]: every producer in
    the client fills exactly one of the two fields. *)
Inductive ApiResponse (T : Type) :=
| Data (d : T)
| Error (msg : string).
Arguments Data {T} d.
Arguments Error {T} msg.

(** JS truthiness of a string: only the empty string is falsy. *)
Definition truthy (s : string) : bool := negb (String.eqb s "").

(** ** The mock API ([services/mockApi.ts]) *)
Module MockApi.

Record TokenResponse := {
  access_token : string;
  user_id : string;
  status : string
}.

Record DecisionResponse := {
  message : string;
  your_decision : string;
  waiting_for_partner : bool;
  match_status : string
}.

Record MatchSummary := {
  id : string;
  partner_pseudonym : string;
  initial_compatibility : Q;
  current_compatibility : Q;
  match_state : string   (* the [status] field of the summary *)
}.

(** [if (otp && otp.length > 0) return {data: ...}; return {error: ...}] *)
Definition verifyOTP (phoneNumber otp : string) : ApiResponse TokenResponse :=
  if truthy otp && (0 <? String.length otp)%nat
  then Data {| access_token := "mock-token-12345";
               user_id := "user-mock-id";
               status := "onboarding" |}
  else Error "Please enter an OTP".

Definition getCurrentMatch : ApiResponse MatchSummary :=
  Error "No active match".

Definition submitDecision (matchId decision : string)
  : ApiResponse DecisionResponse :=
  Data {| message := "Decision recorded";
          your_decision := decision;
          waiting_for_partner := true;
          match_status := "revealed" |}.

End MockApi.

(** ** The API service ([services/api.ts], class [ApiService]) *)
Module Api.
Import MockApi.

Definition USE_MOCK_API : bool := true.

(** The HTTP side of [ApiService.request]: what the backend answers to a
    request.  It lies outside the client and is a parameter of every call. *)
Record Backend := {
  post_verify_otp : string -> string -> ApiResponse TokenResponse;
  post_decision : string -> string -> ApiResponse DecisionResponse;
  get_current : ApiResponse MatchSummary
}.

Definition submitDecision (be : Backend) (matchId : string) (decision : Decision)
  : ApiResponse DecisionResponse :=
  if USE_MOCK_API then MockApi.submitDecision matchId (decision_string decision)
  else post_decision be ("/matching/" ++ matchId ++ "/decision")
                        (decision_string decision).

Definition getCurrentMatch (be : Backend) : ApiResponse MatchSummary :=
  if USE_MOCK_API then MockApi.getCurrentMatch else get_current be.

Definition verifyOTP (be : Backend) (phoneNumber otp : string)
  : ApiResponse TokenResponse :=
  if USE_MOCK_API then MockApi.verifyOTP phoneNumber otp
  else post_verify_otp be phoneNumber otp.

End Api.

(** ** The profile reveal screen ([ProfileRevealScreen]) *)
Module ProfileReveal.
Import MockApi.

(** What the screen does to the world outside its own state. *)
Inductive Effect :=
| StartPolling (period_ms : Z)          (* setInterval(..., 2000) *)
| ClearInterval
| SetStatus (s : string)                (* useUserStore.setStatus *)
| SetCurrentMatch (m : option string)   (* useUserStore.setCurrentMatch *)
| NavigateBlindChat (matchId : string)  (* navigation.replace('BlindChat') *)
| NavigateWaiting.                      (* navigation.replace('Waiting') *)

Record Screen := {
  decision : option Decision;
  submitting : bool;
  waitingForPartner : bool
}.

Definition initial : Screen :=
  {| decision := None; submitting := false; waitingForPartner := false |}.

Definition handleResult (matchId status : string) : list Effect :=
  if String.eqb status "continued"
  then [NavigateBlindChat matchId]
  else [SetStatus "active"; SetCurrentMatch None; NavigateWaiting].

(** The screen's [submitDecision], given the answer of [api.submitDecision]. *)
Definition submitDecision_with (resp : ApiResponse DecisionResponse)
    (matchId : string) (choice : Decision) (s : Screen) : Screen * list Effect :=
  let s1 := {| decision := Some choice; submitting := true;
               waitingForPartner := waitingForPartner s |} in
  let s2 := {| decision := decision s1; submitting := false;
               waitingForPartner := waitingForPartner s1 |} in
  match resp with
  | Data data =>
      if waiting_for_partner data
      then ({| decision := decision s2; submitting := submitting s2;
               waitingForPartner := true |}, [StartPolling 2000])
      else (s2, handleResult matchId (match_status data))
  | Error _ => (s2, [])
  end.

Definition submitDecision (be : Api.Backend) (matchId : string)
    (choice : Decision) (s : Screen) : Screen * list Effect :=
  submitDecision_with (Api.submitDecision be matchId choice) matchId choice s.








End ProfileReveal.

(** ** Configuration ([config/index.ts]) *)
Module Config.

Record Thresholds := {
  compatibilityReveal : float;
  minMatchScore : float
}.

Definition thresholds : Thresholds :=
  {| compatibilityReveal := 0.80%float;
     minMatchScore := 0.50%float |}.

Definition WS_URL (dev : bool) : string :=
  if dev then "ws://localhost:8000/api" else "wss://api.blinddate.app/api".

End Config.

(** ** The compatibility meter ([components/CompatibilityMeter]) *)
Module CompatibilityMeter.
Import SpecFloat FloatOps.

(** The double with the value of an integer (exact below [2 ^ 53]). *)
Fixpoint float_of_pos (p : positive) : float :=
  match p with
  | xH => 1%float
  | xO q => (2 * float_of_pos q)%float
  | xI q => (2 * float_of_pos q + 1)%float
  end.

Definition float_of_Z (n : Z) : float :=
  match n with
  | Z0 => 0%float
  | Zpos p => float_of_pos p
  | Zneg p => (- float_of_pos p)%float
  end.

(** [Math.round] on a double: the nearest integer, ties towards plus
    infinity.  NaN, the infinities, the zeros and the doubles that are
    integers already are returned as they are; a negative double that rounds
    to zero gives [-0].  The double is [(-1)^s * m * 2^e]. *)
Definition Math_round (x : float) : float :=
  match Prim2SF x with
  | S754_finite s m e =>
      if (0 <=? e)%Z then x
      else
        let num := if s then Zneg m else Zpos m in
        let n := ((2 * num + 2 ^ (- e)) / 2 ^ (1 - e))%Z in
        if (n =? 0)%Z && s then (- 0)%float else float_of_Z n
  | _ => x
  end.

Definition percentage (score : float) : float :=
  Math_round (score * 100)%float.

Definition getColor (score : float) : string :=
  if (80 <=? percentage score)%float then "#10B981"
  else if (60 <=? percentage score)%float then "#8B5CF6"
  else if (40 <=? percentage score)%float then "#F59E0B"
  else "#6B7280".

Definition getLabel (score : float) : string :=
  if (80 <=? percentage score)%float then "Ready to reveal!"
  else if (60 <=? percentage score)%float then "Great connection"
  else if (40 <=? percentage score)%float then "Getting warmer"
  else "Keep chatting".

(** The score of [k] percent: the double nearest to [k / 100], which is what
    the literal [0.80] denotes for [k = 80]. *)
Definition whole_percent (k : nat) : float :=
  (float_of_Z (Z.of_nat k) / 100)%float.

(** [styles.threshold.left], the position of the threshold marker. *)
Definition threshold_left : string := "80%".

End CompatibilityMeter.

(** The subtitle of the reveal screen's "revealing" view. *)
Definition revealingSubtitle : string := "You've reached 80% compatibility".

(** ** The WebSocket service ([services/api.ts], class [WebSocketService]) *)
Module WebSocketService.

(** A value produced by [JSON.parse]. *)
Inductive JSValue :=
| JUndefined
| JNull
| JBool (b : bool)
| JNum (q : Q)
| JStr (s : string)
| JArr (items : list JSValue)
| JObj (fields : list (string * JSValue)).

Fixpoint assoc (k : string) (fields : list (string * JSValue)) : JSValue :=
  match fields with
  | [] => JUndefined
  | (k', v) :: rest => if String.eqb k k' then v else assoc k rest
  end.

(** [v.type]: a [TypeError] ([None]) on [null] and [undefined], the field of
    an object, [undefined] on every other value. *)
Definition get_type (v : JSValue) : option JSValue :=
  match v with
  | JUndefined | JNull => None
  | JObj fields => Some (assoc "type" fields)
  | _ => Some JUndefined
  end.

Inductive ReadyState := CONNECTING | OPEN | CLOSING | CLOSED.

Record WebSocket := {
  url : string;
  readyState : ReadyState
}.

(** A registered handler is a function reference; [off] compares
    references, so a handler is known by its identity. *)
Definition MessageHandler := nat.

Inductive Effect :=
| NewWebSocket (u : string)
| SocketClose (u : string)
| ConsoleLog (msg : string)
| ConsoleError (msg : string)
| SetTimeout (delay_ms : Z)          (* the reconnect callback, armed *)
| CallHandler (h : MessageHandler) (message : JSValue)
| SocketSend (type : string) (data : JSValue).

Record Service := {
  socket : option WebSocket;
  handlers : gmap string (list MessageHandler);
  reconnectAttempts : nat;
  matchId : option string
}.

(** [private maxReconnectAttempts = 5], never assigned again. *)
Definition maxReconnectAttempts : nat := 5.

Definition fresh : Service :=
  {| socket := None; handlers := ∅; reconnectAttempts := 0; matchId := None |}.

(** What [connect] reads besides the service: the base URL and the token of
    the user store, printed by the template string ([null] prints "null"). *)
Record Env := {
  WS_BASE_URL : string;
  token : option string
}.

Definition token_text (t : option string) : string :=
  match t with Some s => s | None => "null" end.

Definition socket_open (s : Service) : bool :=
  match socket s with
  | Some ws => match readyState ws with OPEN => true | _ => false end
  | None => false
  end.

Definition disconnect (s : Service) : Service * list Effect :=
  ({| socket := None; handlers := handlers s;
      reconnectAttempts := reconnectAttempts s; matchId := None |},
   match socket s with
   | Some ws => [SocketClose (url ws)]
   | None => []
   end).

Definition connect (env : Env) (m : string) (s : Service)
  : Service * list Effect :=
  if socket_open s && bool_decide (matchId s = Some m) then (s, [])
  else
    let s1 := {| socket := socket s; handlers := handlers s;
                 reconnectAttempts := reconnectAttempts s;
                 matchId := Some m |} in
    let '(s2, closed) := disconnect s1 in
    let u := WS_BASE_URL env ++ "/chat/ws/" ++ m ++ "?token="
             ++ token_text (token env) in
    ({| socket := Some {| url := u; readyState := CONNECTING |};
        handlers := handlers s2;
        reconnectAttempts := reconnectAttempts s2;
        matchId := matchId s2 |},
     (closed ++ [NewWebSocket u])%list).

(** [this.matchId] used as a condition. *)
Definition matchId_truthy (s : Service) : bool :=
  match matchId s with Some m => truthy m | None => false end.

Definition attemptReconnect (s : Service) : Service * list Effect :=
  if (reconnectAttempts s <? maxReconnectAttempts)%nat && matchId_truthy s
  then
    let n := S (reconnectAttempts s) in
    ({| socket := socket s; handlers := handlers s;
        reconnectAttempts := n; matchId := matchId s |},
     [ConsoleLog ("Attempting reconnect " ++ pretty n ++ "/"
                  ++ pretty maxReconnectAttempts);
      SetTimeout (2000 * Z.of_nat n)])
  else (s, []).

(** The callback armed by [attemptReconnect], when its timer fires. *)
Definition reconnect_timer (env : Env) (s : Service) : Service * list Effect :=
  match matchId s with
  | Some m => if truthy m then connect env m s else (s, [])
  | None => (s, [])
  end.

Definition onopen (s : Service) : Service * list Effect :=
  ({| socket := socket s; handlers := handlers s;
      reconnectAttempts := 0; matchId := matchId s |},
   [ConsoleLog "WebSocket connected"]).

Definition onclose (s : Service) : Service * list Effect :=
  let '(s', effects) := attemptReconnect s in
  (s', ConsoleLog "WebSocket disconnected" :: effects).

Definition onerror (s : Service) : Service * list Effect :=
  (s, [ConsoleError "WebSocket error:"]).

(** The browser marks the current socket, then runs its handler. *)
Definition mark (r : ReadyState) (s : Service) : Service :=
  {| socket := (fun ws => {| url := url ws; readyState := r |}) <$> socket s;
     handlers := handlers s;
     reconnectAttempts := reconnectAttempts s;
     matchId := matchId s |}.

Definition socket_opened (s : Service) := onopen (mark OPEN s).
Definition socket_closed (s : Service) := onclose (mark CLOSED s).

Definition on (type : string) (h : MessageHandler) (s : Service) : Service :=
  {| socket := socket s;
     handlers := <[type := (default [] (handlers s !! type) ++ [h])%list]>
                   (handlers s);
     reconnectAttempts := reconnectAttempts s;
     matchId := matchId s |}.

Fixpoint remove_first (h : MessageHandler) (hs : list MessageHandler) :=
  match hs with
  | [] => []
  | h' :: rest => if Nat.eqb h h' then rest else h' :: remove_first h rest
  end.

Definition off (type : string) (h : MessageHandler) (s : Service) : Service :=
  match handlers s !! type with
  | Some hs =>
      {| socket := socket s;
         handlers := <[type := remove_first h hs]> (handlers s);
         reconnectAttempts := reconnectAttempts s;
         matchId := matchId s |}
  | None => s
  end.

(** [send]: the envelope [{type, data}] goes out only on an open socket. *)
Definition send (type : string) (data : JSValue) (s : Service)
  : Service * list Effect :=
  (s, if socket_open s then [SocketSend type data] else []).

Definition sendTyping (s : Service) : Service * list Effect :=
  send "typing" (JObj [("typing", JBool true)]) s.

Section Inbound.
(** [JSON.parse]: [None] when it throws a [SyntaxError]. *)
Variable JSON_parse : string -> option JSValue.
(** Whether a handler, run on a message, throws.  Handlers are callbacks
    of the screens; they do not call back into the service. *)
Variable throws : MessageHandler -> JSValue -> bool.

(** [handlers.forEach(handler => handler(message))]: the calls made, and
    whether one of them threw (which ends the loop). *)
Fixpoint call_all (hs : list MessageHandler) (message : JSValue)
  : list Effect * bool :=
  match hs with
  | [] => ([], false)
  | h :: rest =>
      if throws h message then ([CallHandler h message], true)
      else let '(calls, thrown) := call_all rest message in
           (CallHandler h message :: calls, thrown)
  end.

(** The handler map has string keys only: any other key finds nothing. *)
Definition emit (s : Service) (type message : JSValue) : list Effect * bool :=
  match type with
  | JStr t =>
      match handlers s !! t with
      | Some hs => call_all hs message
      | None => ([], false)
      end
  | _ => ([], false)
  end.

(** The body of the [try] block of [socket.onmessage]. *)
Definition onmessage_try (s : Service) (raw : string) : list Effect * bool :=
  match JSON_parse raw with
  | None => ([], true)
  | Some message =>
      match get_type message with
      | None => ([], true)
      | Some type => emit s type message
      end
  end.

(** How a handler of the socket ends. *)
Inductive Completion := Returned | Threw.

(** [socket.onmessage]: the [catch] logs whatever the [try] threw. *)
Definition onmessage (s : Service) (raw : string)
  : Service * list Effect * Completion :=
  let '(effects, thrown) := onmessage_try s raw in
  (s,
   (effects ++ (if thrown
                then [ConsoleError "Failed to parse WebSocket message:"]
                else []))%list,
   Returned).
End Inbound.

End WebSocketService.

(** ** The blind chat screen ([BlindChatScreen]) *)
Module BlindChat.

Record Message := {
  id : string;
  sender_id : string;
  content : string;
  created_at : string;
  is_mine : bool
}.

(** [{ ...newMessage, is_mine: false }] *)
Definition received (m : Message) : Message :=
  {| id := id m; sender_id := sender_id m; content := content m;
     created_at := created_at m; is_mine := false |}.

(** [handleNewMessage], as the state update it applies to [messages];
    [userId] is the store's [string | null]. *)
Definition handleNewMessage (userId : option string) (newMessage : Message)
    (prev : list Message) : list Message :=
  if negb (bool_decide (Some (sender_id newMessage) = userId))
  then prev ++ [received newMessage]
  else prev.

End BlindChat.

(** ** The user store ([stores/userStore.ts]) *)
Module UserStore.

Inductive UserStatus := onboarding | active | paused | in_chat.

Definition status_string (u : UserStatus) : string :=
  match u with
  | onboarding => "onboarding" | active => "active"
  | paused => "paused" | in_chat => "in_chat"
  end.

Inductive Platform := Web | Native.

(** The two key-value stores behind [storage]: [localStorage] on the web,
    [expo-secure-store] elsewhere. *)
Record Device := {
  OS : Platform;
  localStorage : gmap string string;
  secureStore : gmap string string
}.

Definition setItem (key value : string) (d : Device) : Device :=
  match OS d with
  | Web => {| OS := OS d; localStorage := <[key := value]> (localStorage d);
              secureStore := secureStore d |}
  | Native => {| OS := OS d; localStorage := localStorage d;
                 secureStore := <[key := value]> (secureStore d) |}
  end.

Definition getItem (key : string) (d : Device) : option string :=
  match OS d with
  | Web => localStorage d !! key
  | Native => secureStore d !! key
  end.

Definition deleteItem (key : string) (d : Device) : Device :=
  match OS d with
  | Web => {| OS := OS d; localStorage := delete key (localStorage d);
              secureStore := secureStore d |}
  | Native => {| OS := OS d; localStorage := localStorage d;
                 secureStore := delete key (secureStore d) |}
  end.

(** The data fields of [UserState].  [status] is kept as the stored text:
    [loadFromStorage] casts whatever string it reads. *)
Record UserState := {
  token : option string;
  userId : option string;
  status : option string;
  currentMatchId : option string
}.

Definition initial : UserState :=
  {| token := None; userId := None; status := None; currentMatchId := None |}.

Definition setAuth (t u : string) (st : UserStatus)
    (w : Device * UserState) : Device * UserState :=
  let '(d, s) := w in
  (setItem "status" (status_string st) (setItem "userId" u (setItem "token" t d)),
   {| token := Some t; userId := Some u; status := Some (status_string st);
      currentMatchId := currentMatchId s |}).

Definition setStatus (st : UserStatus) (w : Device * UserState)
  : Device * UserState :=
  let '(d, s) := w in
  (setItem "status" (status_string st) d,
   {| token := token s; userId := userId s;
      status := Some (status_string st);
      currentMatchId := currentMatchId s |}).

Definition setCurrentMatch (m : option string) (w : Device * UserState)
  : Device * UserState :=
  let '(d, s) := w in
  ((match m with
    | Some v => if truthy v then setItem "currentMatchId" v d
                else deleteItem "currentMatchId" d
    | None => deleteItem "currentMatchId" d
    end),
   {| token := token s; userId := userId s; status := status s;
      currentMatchId := m |}).

Definition logout (w : Device * UserState) : Device * UserState :=
  let '(d, _) := w in
  (deleteItem "currentMatchId"
     (deleteItem "status" (deleteItem "userId" (deleteItem "token" d))),
   {| token := None; userId := None; status := None; currentMatchId := None |}).

Definition loadFromStorage (w : Device * UserState) : Device * UserState :=
  let '(d, _) := w in
  (d, {| token := getItem "token" d; userId := getItem "userId" d;
         status := getItem "status" d;
         currentMatchId := getItem "currentMatchId" d |}).

End UserStore.

(** ** Runs and sample inputs *)
Module Samples.
Import WebSocketService.

(** A backend that is never reached while [USE_MOCK_API] holds. *)
Definition offline : Api.Backend :=
  {| Api.post_verify_otp := fun _ _ => Error "Network error. Please try again.";
     Api.post_decision := fun _ _ => Error "Network error. Please try again.";
     Api.get_current := Error "Network error. Please try again." |}.

Definition env : Env :=
  {| WS_BASE_URL := Config.WS_URL true; token := Some "mock-token-12345" |}.

(** A stand-in for [JSON.parse] that knows two literals. *)
Definition literal_parse (raw : string) : option JSValue :=
  if String.eqb raw "null" then Some JNull
  else if String.eqb raw "true" then Some (JBool true)
  else None.

Definition hello : BlindChat.Message :=
  {| BlindChat.id := "msg-1"; BlindChat.sender_id := "other-user";
     BlindChat.content := "Hey! Nice to match with you.";
     BlindChat.created_at := "2024-01-01T00:00:00.000Z";
     BlindChat.is_mine := false |}.

End Samples.

Module Reconnect.
Import WebSocketService.

(** The delays of the timers armed in a trace. *)
Fixpoint delays (effects : list Effect) : list Z :=
  match effects with
  | [] => []
  | SetTimeout d :: rest => d :: delays rest
  | _ :: rest => delays rest
  end.

(** An effect that reaches the client context: a handler call. *)
Definition reaches_client (e : Effect) : bool :=
  match e with CallHandler _ _ => true | _ => false end.

(** What can happen to the service: the calls of its public methods and
    the events of its socket and of its reconnect timer. *)
Inductive Event :=
| Connect (m : string)
| Disconnect
| On (type : string) (h : MessageHandler)
| Off (type : string) (h : MessageHandler)
| Opened
| Closed
| ClosedDropped        (* the close of a socket [disconnect] has dropped *)
| Failed
| Frame (raw : string)
| Typing
| TimerFired.

Section Run.
Variable env : Env.
Variable JSON_parse : string -> option JSValue.
Variable throws : MessageHandler -> JSValue -> bool.

Definition step (ev : Event) (s : Service) : Service * list Effect :=
  match ev with
  | Connect m => connect env m s
  | Disconnect => disconnect s
  | On type h => (on type h s, [])
  | Off type h => (off type h s, [])
  | Opened => socket_opened s
  | Closed => socket_closed s
  | ClosedDropped => onclose s
  | Failed => onerror s
  | Frame raw => let '(s', effects, _) := onmessage JSON_parse throws s raw in
                 (s', effects)
  | Typing => sendTyping s
  | TimerFired => reconnect_timer env s
  end.

Fixpoint run (events : list Event) (s : Service) : Service * list Effect :=
  match events with
  | [] => (s, [])
  | ev :: rest =>
      let '(s1, first) := step ev s in
      let '(s2, later) := run rest s1 in
      (s2, (first ++ later)%list)
  end.
End Run.

End Reconnect.

(** ** Sequences of store actions *)
Module StoreRun.
Import UserStore.

(** [setStatus] as it runs on whatever text it is given (the reveal screen
    and the onboarding screen call it with the literal 'active'). *)
Definition setStatusText (text : string) (w : Device * UserState)
  : Device * UserState :=
  let '(d, s) := w in
  (setItem "status" text d,
   {| token := token s; userId := userId s; status := Some text;
      currentMatchId := currentMatchId s |}).

Inductive Action :=
| SetAuth (t u : string) (st : UserStatus)
| SetStatus (st : UserStatus)
| SetCurrentMatch (m : option string)
| Logout
| LoadFromStorage.

Definition act (a : Action) (w : Device * UserState) : Device * UserState :=
  match a with
  | SetAuth t u st => setAuth t u st w
  | SetStatus st => setStatus st w
  | SetCurrentMatch m => setCurrentMatch m w
  | Logout => logout w
  | LoadFromStorage => loadFromStorage w
  end.

Definition acts (actions : list Action) (w : Device * UserState)
  : Device * UserState :=
  foldl (fun w a => act a w) w actions.

(** The store holds exactly what a restart would read back. *)
Definition mirrored (w : Device * UserState) : Prop :=
  snd (loadFromStorage w) = snd w.

(** A match id that is a non-empty string, or none. *)
Definition proper (a : Action) : Prop :=
  match a with
  | SetCurrentMatch (Some m) => m <> ""
  | _ => True
  end.

End StoreRun.

(** ** The navigator root ([App.tsx]) *)
Module App.

Inductive Route :=
| Auth
| OnboardingChat
| Waiting
| BlindChat (matchId : string)
| ProfileReveal (matchId : string).

(** [getInitialRoute], on the [token] and [status] of the store. *)
Definition getInitialRoute (s : UserStore.UserState) : Route :=
  if negb (from_option truthy false (UserStore.token s)) then Auth
  else if bool_decide (UserStore.status s = Some "onboarding") then OnboardingChat
  else if bool_decide (UserStore.status s = Some "active") then Waiting
  else if bool_decide (UserStore.status s = Some "in_chat") then Waiting
  else Auth.

End App.

(** ** The rest of the mock API ([services/mockApi.ts]) *)
Module Mock.

Definition MOCK_AI_RESPONSES : list string :=
  ["Hey there! 👋 I'm your dating wingman. Instead of boring forms, let's just chat! So tell me - what's your name and what gets you excited to start your day?";
   "Nice to meet you! That sounds awesome. So what do you do for work? And more importantly, what do you do for fun when you're not working?";
   "A tech person who touches grass AND can cook? That's rare! 😄 What kind of cuisine do you like making? And when you're hiking, are you the 'reach the summit at sunrise' type or more 'casual trail with good views and snacks' vibe?";
   "Love it! You sound like someone who knows how to balance work and play. Now let's talk about what you're looking for. What's your ideal relationship like? Casual dating, something serious, or just seeing where things go?";
   "Got it! And what are some qualities you absolutely need in a partner? And on the flip side, any dealbreakers I should know about?";
   "Perfect, I'm getting a great picture of who you are! Just a couple more things - what age range are you looking for? And any preference on location?";
   "Awesome! I think I have everything I need. You sound like a genuine, interesting person - I'm excited to find your match! Your profile is now complete. Let me find someone special for you... ✨"].

Record ExtractedData := {
  display_name : string;
  age : Z;
  location : string;
  interests : list string
}.

(** [message] is an array read, [undefined] ([None]) out of range. *)
Record OnboardingReply := {
  message : option string;
  profile_complete : bool;
  extracted_data : option ExtractedData
}.

Record OnboardingProgress := {
  progress : nat;
  messages_count : nat;
  completed : bool
}.

Definition sendOTP (phoneNumber : string) : ApiResponse (string * string) :=
  Data ("OTP sent", "123456").

(** [sendOnboardingMessage], on the module variable [conversationIndex]:
    the answer and the new value of the variable. *)
Definition sendOnboardingMessage (text : string) (conversationIndex : nat)
  : ApiResponse OnboardingReply * nat :=
  let isComplete := (length MOCK_AI_RESPONSES - 1 <=? conversationIndex)%nat in
  let response :=
    MOCK_AI_RESPONSES !! (conversationIndex `min` (length MOCK_AI_RESPONSES - 1)) in
  (Data {| message := response;
           profile_complete := isComplete;
           extracted_data :=
             if isComplete
             then Some {| display_name := "Demo User"; age := 28;
                          location := "San Francisco";
                          interests := ["hiking"; "cooking"; "technology"] |}
             else None |},
   S conversationIndex).

Definition getOnboardingProgress (conversationIndex : nat)
  : ApiResponse OnboardingProgress :=
  Data {| progress := (conversationIndex * 15) `min` 100;
          messages_count := conversationIndex * 2;
          completed := (length MOCK_AI_RESPONSES <=? conversationIndex)%nat |}.



Record MockMatch := {
  id : string;
  partner_pseudonym : string;
  initial_compatibility : Q;
  current_compatibility : Q;
  status : string;
  created_at : string
}.

(** [findMatch]; [now] is [new Date().toISOString()]. *)
Definition findMatch (now : string) : ApiResponse (string * option MockMatch) :=
  Data ("Match found!",
        Some {| id := "match-mock-id";
                partner_pseudonym := "Sunset Wanderer";
                initial_compatibility := 58 # 100;
                current_compatibility := 58 # 100;
                status := "chatting";
                created_at := now |}).

(** [sendMessage]; [now_ms] is [Date.now()], [now] its ISO text. *)
Definition sendMessage (matchId content : string) (now_ms : Z) (now : string)
  : ApiResponse BlindChat.Message :=
  Data {| BlindChat.id := "msg-" ++ pretty now_ms;
          BlindChat.sender_id := "user-mock-id";
          BlindChat.content := content;
          BlindChat.created_at := now;
          BlindChat.is_mine := true |}.

Definition suggestions : list string :=
  ["Ask about their favorite weekend activity!";
   "You both seem to enjoy the outdoors - maybe ask about a memorable trip?";
   "Try sharing something personal about yourself to deepen the connection.";
   "Ask what they're looking for in a relationship."].

(** An array read at an integer index: [undefined] below zero and past the
    end. *)
Definition at_index {A : Type} (l : list A) (i : Z) : option A :=
  if (i <? 0)%Z then None else l !! Z.to_nat i.

(** [getAISuggestion]; [random] is the value of [Math.random()]. *)
Definition getAISuggestion (matchId : string) (random : Q)
  : ApiResponse (option string) :=
  Data (at_index suggestions (Qfloor (random * inject_Z (Z.of_nat (length suggestions))))).

End Mock.

(** ** The sign-in screen ([screens/AuthScreen.tsx]) *)
Module AuthScreen.

Inductive Step := phone | otp_step.

Record Screen := {
  step : Step;
  phoneNumber : string;
  otp : string;
  loading : bool;
  error : string
}.

Definition initial : Screen :=
  {| step := phone; phoneNumber := ""; otp := ""; loading := false; error := "" |}.

(** What a handler of the screen did besides changing the screen. *)
Record Outcome := {
  screen : Screen;
  world : UserStore.Device * UserStore.UserState;
  api_calls : nat;
  navigated : option App.Route
}.

Definition with_error (text : string) (s : Screen) : Screen :=
  {| step := step s; phoneNumber := phoneNumber s; otp := otp s;
     loading := false; error := text |}.

(** The store takes the status text as it comes ([data.status as
    UserStatus] is a cast). *)
Definition setAuthText (t u text : string)
    (w : UserStore.Device * UserStore.UserState)
  : UserStore.Device * UserStore.UserState :=
  let '(d, s) := w in
  (UserStore.setItem "status" text
     (UserStore.setItem "userId" u (UserStore.setItem "token" t d)),
   {| UserStore.token := Some t; UserStore.userId := Some u;
      UserStore.status := Some text;
      UserStore.currentMatchId := UserStore.currentMatchId s |}).

Definition handleVerifyOTP (be : Api.Backend) (s : Screen)
    (w : UserStore.Device * UserStore.UserState) : Outcome :=
  if (String.length (otp s) =? 0)%nat
  then {| screen := with_error "Please enter a code" s; world := w;
          api_calls := 0; navigated := None |}
  else
    let cleared := with_error "" s in
    match Api.verifyOTP be (phoneNumber s) (otp s) with
    | Error apiError =>
        if truthy apiError
        then {| screen := with_error apiError s; world := w;
                api_calls := 1; navigated := None |}
        else {| screen := cleared; world := w; api_calls := 1;
                navigated := None |}
    | Data data =>
        {| screen := cleared;
           world := setAuthText (MockApi.access_token data)
                      (MockApi.user_id data) (MockApi.status data) w;
           api_calls := 1;
           navigated :=
             Some (if String.eqb (MockApi.status data) "onboarding"
                   then App.OnboardingChat else App.Waiting) |}
    end.

Section Trimmed.
(** [String.prototype.trim]. *)
Variable trim : string -> string.

Definition handleSendOTP (s : Screen) : Screen * nat :=
  if negb (truthy (trim (phoneNumber s)))
  then (with_error "Please enter your phone number" s, 0%nat)
  else
    match Mock.sendOTP (phoneNumber s) with
    | Error apiError =>
        if truthy apiError then (with_error apiError s, 1%nat)
        else ({| step := otp_step; phoneNumber := phoneNumber s; otp := otp s;
                 loading := false; error := "" |}, 1%nat)
    | Data _ =>
        ({| step := otp_step; phoneNumber := phoneNumber s; otp := otp s;
            loading := false; error := "" |}, 1%nat)
    end.
End Trimmed.

End AuthScreen.

(** ** The other methods of the API service ([services/api.ts])

    Each method returns the mock's answer while [USE_MOCK_API] holds, and
    the answer of the network ([real]) otherwise. *)
Module ApiRest.

Definition sendOTP (real : ApiResponse (string * string)) (phoneNumber : string)
  : ApiResponse (string * string) :=
  if Api.USE_MOCK_API then Mock.sendOTP phoneNumber else real.

Definition sendOnboardingMessage (real : ApiResponse Mock.OnboardingReply)
    (text : string) (conversationIndex : nat)
  : ApiResponse Mock.OnboardingReply * nat :=
  if Api.USE_MOCK_API then Mock.sendOnboardingMessage text conversationIndex
  else (real, conversationIndex).

Definition findMatch (real : ApiResponse (string * option Mock.MockMatch))
    (now : string) : ApiResponse (string * option Mock.MockMatch) :=
  if Api.USE_MOCK_API then Mock.findMatch now else real.

Definition sendMessage (real : ApiResponse BlindChat.Message)
    (matchId content : string) (now_ms : Z) (now : string)
  : ApiResponse BlindChat.Message :=
  if Api.USE_MOCK_API then Mock.sendMessage matchId content now_ms now else real.

                                                   (* [None]: json() threw *)






(** The headers [request] sends: the caller's win over the token's, which
    win over the content type. *)
Definition headers (token : option string) (options : gmap string string)
  : gmap string string :=
  options
  ∪ (match token with
     | Some t => if truthy t then {[ "Authorization" := "Bearer " ++ t ]} else ∅
     | None => ∅
     end)
  ∪ {[ "Content-Type" := "application/json" ]}.

End ApiRest.

(** ** The onboarding chat screen ([OnboardingChatScreen]) *)
Module OnboardingChat.

Inductive Role := user | assistant.

Record Message := {
  id : string;
  role : Role;
  content : string
}.

Record Screen := {
  messages : list Message;
  inputText : string;
  loading : bool;
  initialLoading : bool
}.

Definition initial : Screen :=
  {| messages := []; inputText := ""; loading := false; initialLoading := true |}.

(** The screen with what it acts on: the mock's [conversationIndex], the
    user store, and the count of navigation timers it has armed
    ([setTimeout(() => navigation.replace('Waiting'), 2000)]). *)
Record World := {
  screen : Screen;
  conversationIndex : nat;
  store : UserStore.Device * UserStore.UserState;
  leaving : nat
}.

Definition from_reply (reply : ApiResponse Mock.OnboardingReply)
  : option Mock.OnboardingReply :=
  match reply with Data d => Some d | Error _ => None end.

(** [data?.message], when truthy. *)
Definition reply_text (reply : ApiResponse Mock.OnboardingReply) : option string :=
  match reply with
  | Data d => match Mock.message d with
              | Some text => if truthy text then Some text else None
              | None => None
              end
  | Error _ => None
  end.

Section Screen.
Variable real : ApiResponse Mock.OnboardingReply.
Variable trim : string -> string.

Definition startConversation (w : World) : World :=
  let '(reply, i) := ApiRest.sendOnboardingMessage real "" (conversationIndex w) in
  {| screen :=
       {| messages := match reply_text reply with
                      | Some text => [{| id := "1"; role := assistant;
                                         content := text |}]
                      | None => messages (screen w)
                      end;
          inputText := inputText (screen w);
          loading := false;
          initialLoading := false |};
     conversationIndex := i;
     store := store w;
     leaving := leaving w |}.

(** [sendMessage]; [now] and [later] are the two readings of [Date.now()],
    before and after the call of the API. *)
Definition sendMessage (now later : Z) (w : World) : World :=
  let s := screen w in
  if negb (truthy (trim (inputText s))) || loading s then w
  else
    let userMessage := {| id := pretty now; role := user;
                          content := trim (inputText s) |} in
    let '(reply, i) :=
      ApiRest.sendOnboardingMessage real (content userMessage)
        (conversationIndex w) in
    let sent := (messages s ++ [userMessage])%list in
    match reply_text reply with
    | Some text =>
        let done := from_option Mock.profile_complete false (from_reply reply) in
        {| screen :=
             {| messages := (sent ++ [{| id := pretty (later + 1)%Z;
                                         role := assistant;
                                         content := text |}])%list;
                inputText := ""; loading := false;
                initialLoading := initialLoading s |};
           conversationIndex := i;
           store := if done then StoreRun.setStatusText "active" (store w)
                    else store w;
           leaving := if done then S (leaving w) else leaving w |}
    | None =>
        {| screen := {| messages := sent; inputText := ""; loading := false;
                        initialLoading := initialLoading s |};
           conversationIndex := i;
           store := store w;
           leaving := leaving w |}
    end.

(** The user types a text and presses send. *)
Definition type_and_send (text : string) (now later : Z) (w : World) : World :=
  sendMessage now later
    {| screen := {| messages := messages (screen w); inputText := text;
                    loading := loading (screen w);
                    initialLoading := initialLoading (screen w) |};
       conversationIndex := conversationIndex w;
       store := store w;
       leaving := leaving w |}.

(** A whole session: the screen mounts, then the user sends the texts one
    after the other, each with its two clock readings. *)
Definition session (turns : list (string * Z * Z)) (w : World) : World :=
  foldl (fun w '(text, now, later) => type_and_send text now later w)
        (startConversation w) turns.
End Screen.

End OnboardingChat.

(** ** The waiting screen ([screens/WaitingScreen.tsx]) *)
Module WaitingScreen.

Definition TIPS : list string :=
  ["Be yourself - authenticity attracts the right people";
   "Ask open-ended questions to spark deeper conversations";
   "Share stories, not just facts about yourself";
   "Humor is attractive - don't be afraid to be playful";
   "Listen actively - respond to what they actually say";
   "Vulnerability creates connection - share what matters to you"].

Record Screen := {
  searching : bool;
  currentTip : nat;
  error : string
}.

Definition initial : Screen :=
  {| searching := false; currentTip := 0; error := "" |}.

(** The callback of the tip interval. *)
Definition nextTip (s : Screen) : Screen :=
  {| searching := searching s;
     currentTip := (currentTip s + 1) `mod` length TIPS;
     error := error s |}.

Record Outcome := {
  screen : Screen;
  world : UserStore.Device * UserStore.UserState;
  navigated : option App.Route
}.

Definition checkExistingMatch (answer : ApiResponse MockApi.MatchSummary)
    (s : Screen) (w : UserStore.Device * UserStore.UserState) : Outcome :=
  match answer with
  | Data data =>
      {| screen := s;
         world := UserStore.setCurrentMatch (Some (MockApi.id data)) w;
         navigated :=
           Some (if String.eqb (MockApi.match_state data) "revealed"
                 then App.ProfileReveal (MockApi.id data)
                 else App.BlindChat (MockApi.id data)) |}
  | Error _ => {| screen := s; world := w; navigated := None |}
  end.

Definition findMatch (answer : ApiResponse (string * option Mock.MockMatch))
    (s : Screen) (w : UserStore.Device * UserStore.UserState) : Outcome :=
  let searching_now := {| searching := true; currentTip := currentTip s;
                          error := "" |} in
  let stopped (text : string) :=
    {| searching := false; currentTip := currentTip s; error := text |} in
  let none_found := "No matches found yet. Try again in a bit!" in
  match answer with
  | Error apiError =>
      {| screen := stopped (if truthy apiError then apiError else none_found);
         world := w; navigated := None |}
  | Data (text, Some found) =>
      {| screen := searching_now;
         world := UserStore.setStatus UserStore.in_chat
                    (UserStore.setCurrentMatch (Some (Mock.id found)) w);
         navigated := Some (App.BlindChat (Mock.id found)) |}
  | Data (text, None) =>
      {| screen := stopped (if truthy text then text else none_found);
         world := w; navigated := None |}
  end.

End WaitingScreen.

(** ** Sending in the blind chat ([BlindChatScreen]) *)
Module BlindChatSend.
Import BlindChat.

Record Screen := {
  messages : list Message;
  inputText : string;
  sending : bool;
  compatibility : Q
}.

(** [{ ...data, is_mine: true }] *)
Definition mine (m : Message) : Message :=
  {| id := id m; sender_id := sender_id m; content := content m;
     created_at := created_at m; is_mine := true |}.

Definition temp_id (now_ms : Z) : string := "temp-" ++ pretty now_ms.

Section Screen.
Variable trim : string -> string.

(** [sendMessage] up to the call of the API: the optimistic update.  The
    user is signed in ([userId] is a string). *)
Definition send_begin (userId : string) (now_ms : Z) (now : string) (s : Screen)
  : option Screen :=
  if negb (truthy (trim (inputText s))) || sending s then None
  else Some {| messages :=
                 (messages s ++ [{| id := temp_id now_ms; sender_id := userId;
                                    content := trim (inputText s);
                                    created_at := now; is_mine := true |}])%list;
               inputText := ""; sending := true;
               compatibility := compatibility s |}.
End Screen.

(** [sendMessage] from the answer of the API on. *)
Definition send_end (now_ms : Z) (answer : ApiResponse Message) (s : Screen)
  : Screen :=
  {| messages :=
       match answer with
       | Data data =>
           map (fun m => if String.eqb (id m) (temp_id now_ms) then mine data else m)
               (messages s)
       | Error _ => messages s
       end;
     inputText := inputText s; sending := false;
     compatibility := compatibility s |}.


(** [handleCompatibilityUpdate]: the new screen, and whether the timer that
    leads to the reveal screen is armed. *)
Definition handleCompatibilityUpdate (score : Q) (reveal_triggered : bool)
    (s : Screen) : Screen * bool :=
  ({| messages := messages s; inputText := inputText s; sending := sending s;
      compatibility := score |}, reveal_triggered).

End BlindChatSend.

(** ** The reveal screen's effects on the user store *)
Module RevealStore.

Definition apply (e : ProfileReveal.Effect)
    (w : UserStore.Device * UserStore.UserState)
  : UserStore.Device * UserStore.UserState :=
  match e with
  | ProfileReveal.SetStatus text => StoreRun.setStatusText text w
  | ProfileReveal.SetCurrentMatch m => UserStore.setCurrentMatch m w
  | _ => w
  end.

Definition apply_all (effects : list ProfileReveal.Effect)
    (w : UserStore.Device * UserStore.UserState)
  : UserStore.Device * UserStore.UserState :=
  foldl (fun w e => apply e w) w effects.

(** The screens a trace navigates to, in order. *)
Definition navigations (effects : list ProfileReveal.Effect) : list App.Route :=
  omap (fun e => match e with
                 | ProfileReveal.NavigateBlindChat m => Some (App.BlindChat m)
                 | ProfileReveal.NavigateWaiting => Some App.Waiting
                 | _ => None
                 end) effects.

End RevealStore.

(** ** More sample inputs *)
Module MoreSamples.
Import WebSocketService.

Definition message_frame : JSValue :=
  JObj [("type", JStr "message");
        ("data", JObj [("id", JStr "msg-1"); ("sender_id", JStr "other-user");
                       ("content", JStr "Hey!");
                       ("created_at", JStr "2024-01-01T00:00:00.000Z");
                       ("is_mine", JBool false)])].

(** A stand-in for [JSON.parse] that knows the text of one frame. *)
Definition frame_parse (raw : string) : option JSValue :=
  if String.eqb raw "frame" then Some message_frame else None.

(** A stand-in for [JSON.parse] that knows four texts. *)
Definition plain_parse (raw : string) : option JSValue :=
  if String.eqb raw "{}" then Some (JObj [])
  else if String.eqb raw "42" then Some (JNum 42)
  else if String.eqb raw "true" then Some (JBool true)
  else if String.eqb raw "null" then Some JNull
  else None.

(** The service after a screen has registered a handler and connected, and
    the socket has opened. *)
Definition connected : Service :=
  fst (Reconnect.run Samples.env plain_parse (fun _ _ => false)
         [Reconnect.On "message" 1%nat; Reconnect.Connect "match-mock-id";
          Reconnect.Opened] fresh).

(** A service with three handlers for 'message' and one for
    'compatibility_update'. *)
Definition listening : Service :=
  {| socket := Some {| url := "ws://localhost:8000/api/chat/ws/match-mock-id";
                       readyState := OPEN |};
     handlers := {[ "message" := [1; 2; 3]%nat;
                    "compatibility_update" := [4%nat] ]};
     reconnectAttempts := 0;
     matchId := None |}.

Definition chatting : BlindChatSend.Screen :=
  {| BlindChatSend.messages := [BlindChat.received Samples.hello];
     BlindChatSend.inputText := "On my way";
     BlindChatSend.sending := false;
     BlindChatSend.compatibility := 65 # 100 |}.

End MoreSamples.

(** * Properties *)

(** ** OTP verification *)

Lemma truthy_length (s : string) : truthy s = (0 <? String.length s)%nat.
Proof. by destruct s. Qed.

(** C9: [verifyOTP] accepts every non-empty code with the fixed mock token,
    user id and status, for every phone number, and answers with an error
    exactly when the code is the empty string. *)
Theorem verifyOTP_accepts_nonempty (phoneNumber otp : string) :
  ((1 <= String.length otp)%nat <->
     MockApi.verifyOTP phoneNumber otp =
       Data {| MockApi.access_token := "mock-token-12345";
               MockApi.user_id := "user-mock-id";
               MockApi.status := "onboarding" |})
  /\ ((exists msg, MockApi.verifyOTP phoneNumber otp = Error msg) <-> otp = "").
Proof.
  unfold MockApi.verifyOTP. rewrite truthy_length, andb_diag.
  destruct otp as [|c otp]; simpl.
  - split; split; try done; try lia. by exists "Please enter an OTP".
  - split; split; try done; try lia. by intros [msg ?].
Qed.

(** ** Decisions on the reveal screen *)
Section Decisions.
Import MockApi ProfileReveal.
Variable be : Api.Backend.
Variable matchId : string.

Lemma api_submitDecision_mock (choice : Decision) :
  Api.submitDecision be matchId choice =
    Data {| message := "Decision recorded";
            your_decision := decision_string choice;
            waiting_for_partner := true;
            match_status := "revealed" |}.
Proof. reflexivity. Qed.

Lemma screen_submitDecision_waits (choice : Decision) (s : Screen) :
  ProfileReveal.submitDecision be matchId choice s =
    ({| decision := Some choice; submitting := false;
        waitingForPartner := true |}, [StartPolling 2000]).
Proof. reflexivity. Qed.



End Decisions.

(** C1 (as amended): a 'pass' is answered like any other decision, with
    [waiting_for_partner = true] and [match_status = "revealed"], and the
    screen enters the waiting phase and starts polling.  The screen handles a
    result at once, without a waiting phase, exactly on an answer that carries
    [waiting_for_partner = false]; on the status "ended" it then resets the
    user to active, clears the current match and goes to the waiting
    screen. *)
Theorem pass_is_answered_with_waiting
    (be : Api.Backend) (matchId : string) (s : ProfileReveal.Screen)
    (data : MockApi.DecisionResponse) :
  Api.submitDecision be matchId Pass =
    Data {| MockApi.message := "Decision recorded";
            MockApi.your_decision := "pass";
            MockApi.waiting_for_partner := true;
            MockApi.match_status := "revealed" |}
  /\ ProfileReveal.submitDecision be matchId Pass s =
       ({| ProfileReveal.decision := Some Pass;
           ProfileReveal.submitting := false;
           ProfileReveal.waitingForPartner := true |},
        [ProfileReveal.StartPolling 2000])
  /\ (MockApi.waiting_for_partner data = false <->
      ProfileReveal.submitDecision_with (Data data) matchId Pass s =
        ({| ProfileReveal.decision := Some Pass;
            ProfileReveal.submitting := false;
            ProfileReveal.waitingForPartner := ProfileReveal.waitingForPartner s |},
         ProfileReveal.handleResult matchId (MockApi.match_status data)))
  /\ ProfileReveal.handleResult matchId "ended" =
       [ProfileReveal.SetStatus "active"; ProfileReveal.SetCurrentMatch None;
        ProfileReveal.NavigateWaiting].
Proof.
  split; [apply api_submitDecision_mock|].
  split; [apply screen_submitDecision_waits|].
  split; [|reflexivity].
  unfold ProfileReveal.submitDecision_with; simpl.
  destruct (MockApi.waiting_for_partner data); split; try done.
  intros Heq. exfalso.
  apply (f_equal snd) in Heq; simpl in Heq.
  unfold ProfileReveal.handleResult in Heq.
  destruct (String.eqb _ _); discriminate.
Qed.

(** C1, as stated, fails: on the mock match, 'pass' from the initial screen is
    answered with [waiting_for_partner = true] and status "revealed", the
    screen waits and polls, and no answer with a final status comes back. *)
Lemma pass_is_not_final_counterexample :
  Api.submitDecision Samples.offline "match-mock-id" Pass =
    Data {| MockApi.message := "Decision recorded";
            MockApi.your_decision := "pass";
            MockApi.waiting_for_partner := true;
            MockApi.match_status := "revealed" |}
  /\ ProfileReveal.submitDecision Samples.offline "match-mock-id" Pass
       ProfileReveal.initial =
       ({| ProfileReveal.decision := Some Pass;
           ProfileReveal.submitting := false;
           ProfileReveal.waitingForPartner := true |},
        [ProfileReveal.StartPolling 2000])
  /\ ~ (exists data,
          Api.submitDecision Samples.offline "match-mock-id" Pass = Data data
          /\ MockApi.waiting_for_partner data = false
          /\ MockApi.match_status data = "ended").
Proof.
  split; [reflexivity|]. split; [reflexivity|].
  intros (data & Hdata & Hwait & _).
  rewrite api_submitDecision_mock in Hdata.
  injection Hdata as <-. discriminate.
Qed.



(** ** The compatibility meter and the reveal threshold *)
Section Meter.
Local Open Scope Q_scope.

Lemma Qfloor_ge_iff (n : Z) (x : Q) : (n <= Qfloor x)%Z <-> inject_Z n <= x.
Proof.
  split; intros H.
  - eapply Qle_trans; [|apply Qfloor_le]. by rewrite <- Zle_Qle.
  - rewrite <- (Qfloor_Z n). by apply Qfloor_resp_le.
Qed.

End Meter.

Section MeterReady.
Import CompatibilityMeter.

Lemma getLabel_ready (score : float) :
  getLabel score = "Ready to reveal!" <->
  (80 <=? percentage score)%float = true.
Proof.
  unfold getLabel. destruct (80 <=? percentage score)%float; [done|].
  by repeat match goal with |- context [if ?b then _ else _] => destruct b end.
Qed.

Lemma getColor_ready (score : float) :
  getColor score = "#10B981" <-> (80 <=? percentage score)%float = true.
Proof.
  unfold getColor. destruct (80 <=? percentage score)%float; [done|].
  by repeat match goal with |- context [if ?b then _ else _] => destruct b end.
Qed.

(** On a score of a whole number of percent the product with 100 is that
    number again, and the meter agrees with the configured threshold. *)
Lemma whole_percent_ready (k : nat) :
  (k <= 100)%nat ->
  percentage (whole_percent k) = float_of_Z (Z.of_nat k)
  /\ (getLabel (whole_percent k) = "Ready to reveal!" <->
      (Config.compatibilityReveal Config.thresholds <=? whole_percent k)%float
        = true)
  /\ (getColor (whole_percent k) = "#10B981" <->
      (Config.compatibilityReveal Config.thresholds <=? whole_percent k)%float
        = true).
Proof.
  intros Hk.
  do 101 (destruct k as [|k];
          [vm_compute; repeat split; intros; done|]).
  lia.
Qed.
End MeterReady.

(** C3 (as amended): the configuration holds the reveal threshold 0.80, but
    the indicators are not computed from it.  The meter compares the rounded
    percentage [Math.round(score * 100)] with the literal 80: label and
    colour say "ready to reveal" exactly when that percentage is at least 80,
    which starts at the double 0.7949999999999999.  On a score of a whole
    number of percent, 0 to 100, this is the same as reaching the configured
    threshold.  The marker position and the text of the reveal screen are
    the literals "80%". *)
Theorem meter_ready_iff_rounded_percentage (score : float) (k : nat) :
  (k <= 100)%nat ->
  (CompatibilityMeter.getLabel score = "Ready to reveal!" <->
     (80 <=? CompatibilityMeter.percentage score)%float = true)
  /\ (CompatibilityMeter.getColor score = "#10B981" <->
       (80 <=? CompatibilityMeter.percentage score)%float = true)
  /\ CompatibilityMeter.percentage 0.7949999999999999 = 80%float
  /\ CompatibilityMeter.percentage 0.7949999999999998 = 79%float
  /\ CompatibilityMeter.percentage (CompatibilityMeter.whole_percent k) =
       CompatibilityMeter.float_of_Z (Z.of_nat k)
  /\ (CompatibilityMeter.getLabel (CompatibilityMeter.whole_percent k) =
        "Ready to reveal!" <->
      (Config.compatibilityReveal Config.thresholds <=?
         CompatibilityMeter.whole_percent k)%float = true)
  /\ (CompatibilityMeter.getColor (CompatibilityMeter.whole_percent k) =
        "#10B981" <->
      (Config.compatibilityReveal Config.thresholds <=?
         CompatibilityMeter.whole_percent k)%float = true)
  /\ CompatibilityMeter.threshold_left = "80%"
  /\ revealingSubtitle = "You've reached 80% compatibility".
Proof.
  intros Hk.
  split; [apply getLabel_ready|].
  split; [apply getColor_ready|].
  split; [reflexivity|]. split; [reflexivity|].
  destruct (whole_percent_ready k Hk) as (Hp & Hl & Hc).
  by repeat split; try apply Hl; try apply Hc.
Qed.

Lemma meter_ready_iff_rounded_percentage_witness :
  (80 <= 100)%nat
  /\ (CompatibilityMeter.getLabel 0.797 = "Ready to reveal!" <->
       (80 <=? CompatibilityMeter.percentage 0.797)%float = true)
  /\ CompatibilityMeter.percentage (CompatibilityMeter.whole_percent 80) =
       80%float
  /\ (CompatibilityMeter.getLabel (CompatibilityMeter.whole_percent 80) =
        "Ready to reveal!" <->
      (Config.compatibilityReveal Config.thresholds <=?
         CompatibilityMeter.whole_percent 80)%float = true).
Proof.
  assert (H : (80 <= 100)%nat) by repeat constructor.
  split; [exact H|].
  destruct (meter_ready_iff_rounded_percentage 0.797 80 H)
    as (Hlabel & _ & _ & _ & Hp & Hl & _).
  split; [exact Hlabel|]. split; [exact Hp|exact Hl].
Defined.

(** C3, as stated, fails: at the score 0.797, below the configured threshold
    0.80, the meter already shows the "ready to reveal" label and colour. *)
Lemma meter_ready_below_threshold_counterexample :
  CompatibilityMeter.getLabel 0.797 = "Ready to reveal!"
  /\ CompatibilityMeter.getColor 0.797 = "#10B981"
  /\ (0.797 <? Config.compatibilityReveal Config.thresholds)%float = true
  /\ ~ (CompatibilityMeter.getLabel 0.797 = "Ready to reveal!" <->
        (Config.compatibilityReveal Config.thresholds <=? 0.797)%float = true).
Proof.
  split; [reflexivity|]. split; [reflexivity|].
  split; [reflexivity|].
  intros [H _]. specialize (H eq_refl). discriminate H.
Qed.

(** ** The WebSocket service *)

(** Every frame, parsed or not, leaves the service as it was, and the handler
    returns: whatever the [try] block throws is caught and logged. *)
Lemma onmessage_total
    (JSON_parse : string -> option WebSocketService.JSValue)
    (throws : WebSocketService.MessageHandler -> WebSocketService.JSValue -> bool)
    (s : WebSocketService.Service) (raw : string) :
  exists effects,
    WebSocketService.onmessage JSON_parse throws s raw =
      (s, effects, WebSocketService.Returned).
Proof.
  unfold WebSocketService.onmessage.
  destruct (WebSocketService.onmessage_try _ _ _ _); eauto.
Qed.

Section Session.
Import WebSocketService Reconnect.

Lemma delays_app (l1 l2 : list Effect) :
  delays (l1 ++ l2) = (delays l1 ++ delays l2)%list.
Proof.
  induction l1 as [|e l1 IH]; [done|].
  destruct e; simpl; by rewrite ?IH.
Qed.

Lemma attemptReconnect_unbound (s : Service) :
  matchId_truthy s = false -> attemptReconnect s = (s, []).
Proof. intros Hm. unfold attemptReconnect. by rewrite Hm, andb_false_r. Qed.

(** [connect] binds [matchId] and then calls [disconnect], which clears it
    again: whenever [connect] opens a socket it leaves [matchId] unbound. *)
Lemma connect_leaves_matchId_unbound (env : Env) (m : string) (s : Service) :
  socket_open s && bool_decide (matchId s = Some m) = false ->
  matchId (fst (connect env m s)) = None
  /\ exists u, socket (fst (connect env m s)) =
                 Some {| url := u; readyState := CONNECTING |}.
Proof. intros Hguard. unfold connect. rewrite Hguard. simpl. eauto. Qed.

(** So a close of a socket opened by [connect] arms no reconnect timer. *)
Lemma close_after_connect_arms_nothing (env : Env) (m : string) (s : Service) :
  socket_open s && bool_decide (matchId s = Some m) = false ->
  snd (socket_closed (fst (connect env m s))) =
    [ConsoleLog "WebSocket disconnected"].
Proof.
  intros Hguard. unfold connect. rewrite Hguard. simpl.
  unfold socket_closed, onclose. by rewrite attemptReconnect_unbound.
Qed.

(** A close never reaches the client context, whatever the service. *)
Lemma close_never_reaches_client (s : Service) :
  Forall (fun e => reaches_client e = false) (snd (onclose s)).
Proof.
  unfold onclose, attemptReconnect.
  destruct (_ && _); simpl; by repeat constructor.
Qed.

(** *** Runs of the service *)
Section Runs.
Variable env : Env.
Variable JSON_parse : string -> option JSValue.
Variable throws : MessageHandler -> JSValue -> bool.

Lemma call_all_arms_nothing (hs : list MessageHandler) (message : JSValue) :
  delays (fst (call_all throws hs message)) = [].
Proof.
  induction hs as [|h hs IH]; [done|]. simpl.
  destruct (throws h message); [done|].
  by destruct (call_all throws hs message).
Qed.

Lemma onmessage_arms_nothing (s : Service) (raw : string) :
  delays (snd (fst (onmessage JSON_parse throws s raw))) = [].
Proof.
  unfold onmessage, onmessage_try.
  destruct (JSON_parse raw) as [v|]; [|done].
  destruct (get_type v) as [ty|]; [|done].
  assert (Hemit : delays (fst (emit throws s ty v)) = []).
  { unfold emit. destruct ty as [| | | |t| |]; try done.
    destruct (handlers s !! t); [apply call_all_arms_nothing|done]. }
  destruct (emit throws s ty v) as [effects thrown]. simpl in *.
  rewrite delays_app, Hemit. by destruct thrown.
Qed.

(** Every step from a service with [matchId] unbound leaves it unbound
    and arms no timer. *)
Lemma step_unbound (ev : Event) (s : Service) :
  matchId s = None ->
  matchId (fst (step env JSON_parse throws ev s)) = None
  /\ delays (snd (step env JSON_parse throws ev s)) = [].
Proof.
  intros Hm. destruct ev; cbn [step].
  - unfold connect. rewrite Hm.
    rewrite (bool_decide_eq_false_2 (None = Some m)) by done.
    rewrite andb_false_r. simpl. split; [done|].
    by destruct (socket s).
  - simpl. split; [done|]. by destruct (socket s).
  - done.
  - unfold off. by destruct (handlers s !! type).
  - done.
  - unfold socket_closed, onclose.
    rewrite attemptReconnect_unbound; [done|].
    unfold matchId_truthy. simpl. by rewrite Hm.
  - unfold onclose.
    rewrite attemptReconnect_unbound; [done|].
    unfold matchId_truthy. by rewrite Hm.
  - done.
  - pose proof (onmessage_arms_nothing s raw) as Harm.
    destruct (onmessage_total JSON_parse throws s raw) as [effects Heq].
    rewrite Heq in *. done.
  - unfold sendTyping, send. simpl. split; [done|]. by destruct (socket_open s).
  - unfold reconnect_timer. by rewrite Hm.
Qed.

(** With [matchId] unbound the guard of [connect] cannot hold: the call
    always ends by creating a socket. *)
Lemma connect_unbound_creates_socket (m : string) (s : Service) :
  matchId s = None ->
  exists closed u, snd (connect env m s) = (closed ++ [NewWebSocket u])%list.
Proof.
  intros Hm. unfold connect. rewrite Hm.
  rewrite (bool_decide_eq_false_2 (None = Some m)) by done.
  rewrite andb_false_r. simpl. eauto.
Qed.

Lemma run_unbound (events : list Event) : forall s : Service,
  matchId s = None ->
  matchId (fst (run env JSON_parse throws events s)) = None
  /\ delays (snd (run env JSON_parse throws events s)) = [].
Proof.
  induction events as [|ev events IH]; intros s Hm; [done|].
  cbn [run].
  destruct (step_unbound ev s Hm) as [Hm1 Hd1].
  destruct (step env JSON_parse throws ev s) as [s1 first]. simpl in Hm1, Hd1.
  destruct (IH s1 Hm1) as [Hm2 Hd2].
  destruct (run env JSON_parse throws events s1) as [s2 later].
  simpl in *. by rewrite delays_app, Hd1, Hd2.
Qed.

(** From a fresh service no sequence of calls and socket events ever
    binds [matchId] at rest or arms a reconnect timer. *)
Corollary fresh_run_never_retries (events : list Event) :
  matchId (fst (run env JSON_parse throws events fresh)) = None
  /\ delays (snd (run env JSON_parse throws events fresh)) = [].
Proof. by apply run_unbound. Qed.

(** So after any run from a fresh service, [connect] never returns early:
    it creates a socket, whatever the state of the current one. *)
Corollary connect_after_run_creates_socket (events : list Event) (m : string) :
  exists closed u,
    snd (connect env m (fst (run env JSON_parse throws events fresh))) =
      (closed ++ [NewWebSocket u])%list.
Proof.
  apply connect_unbound_creates_socket, fresh_run_never_retries.
Qed.
End Runs.
End Session.

(** C4, on the code: [connect] for a match, the socket opening, then an
    unexpected close.  [connect] has left the stored [matchId] unbound, so
    the close only writes the console line: no reconnect timer is armed, no
    attempt is counted and the closed socket is not replaced.  It is so for
    every run: whatever calls and socket events come first, a close on a
    service that started fresh arms no timer. *)
Theorem unexpected_close_never_retries
    (env : WebSocketService.Env)
    (JSON_parse : string -> option WebSocketService.JSValue)
    (throws : WebSocketService.MessageHandler -> WebSocketService.JSValue -> bool)
    (events : list Reconnect.Event) :
  Reconnect.run Samples.env Samples.literal_parse (fun _ _ => false)
    [Reconnect.Connect "match-mock-id"; Reconnect.Opened; Reconnect.Closed]
    WebSocketService.fresh =
    ({| WebSocketService.socket :=
          Some {| WebSocketService.url :=
                    "ws://localhost:8000/api/chat/ws/match-mock-id?token=mock-token-12345";
                  WebSocketService.readyState := WebSocketService.CLOSED |};
        WebSocketService.handlers := ∅;
        WebSocketService.reconnectAttempts := 0;
        WebSocketService.matchId := None |},
     [WebSocketService.NewWebSocket
        "ws://localhost:8000/api/chat/ws/match-mock-id?token=mock-token-12345";
      WebSocketService.ConsoleLog "WebSocket connected";
      WebSocketService.ConsoleLog "WebSocket disconnected"])
  /\ Reconnect.delays
       (snd (Reconnect.run env JSON_parse throws
               (events ++ [Reconnect.Closed])%list WebSocketService.fresh)) = []
  /\ WebSocketService.attemptReconnect
       (fst (Reconnect.run env JSON_parse throws events WebSocketService.fresh)) =
       (fst (Reconnect.run env JSON_parse throws events WebSocketService.fresh),
        []).
Proof.
  split; [reflexivity|].
  split; [by apply run_unbound|].
  apply attemptReconnect_unbound. unfold WebSocketService.matchId_truthy.
  by destruct (run_unbound env JSON_parse throws events WebSocketService.fresh)
    as [-> _].
Qed.

(** The guard of [connect]: on a service whose socket is open and whose
    stored [matchId] is the one asked for, [connect] returns at once, the
    service is unchanged and the trace is empty. *)
Lemma connect_guard
    (env : WebSocketService.Env) (m : string) (s : WebSocketService.Service) :
  WebSocketService.socket_open s = true ->
  WebSocketService.matchId s = Some m ->
  WebSocketService.connect env m s = (s, []).
Proof.
  intros Hopen Hm. unfold WebSocketService.connect.
  by rewrite Hopen, bool_decide_eq_true_2.
Qed.

(** C8, on the code: [connect] for a match, the socket opening, then
    [connect] for the same match again.  The first call leaves the stored
    [matchId] unbound, so the second call does not return at once: it closes
    the open socket and creates a new one. *)
Theorem connect_again_on_open_channel_reopens :
  Reconnect.run Samples.env Samples.literal_parse (fun _ _ => false)
    [Reconnect.Connect "match-mock-id"; Reconnect.Opened] WebSocketService.fresh =
    ({| WebSocketService.socket :=
          Some {| WebSocketService.url :=
                    "ws://localhost:8000/api/chat/ws/match-mock-id?token=mock-token-12345";
                  WebSocketService.readyState := WebSocketService.OPEN |};
        WebSocketService.handlers := ∅;
        WebSocketService.reconnectAttempts := 0;
        WebSocketService.matchId := None |},
     [WebSocketService.NewWebSocket
        "ws://localhost:8000/api/chat/ws/match-mock-id?token=mock-token-12345";
      WebSocketService.ConsoleLog "WebSocket connected"])
  /\ snd (Reconnect.run Samples.env Samples.literal_parse (fun _ _ => false)
            [Reconnect.Connect "match-mock-id"; Reconnect.Opened;
             Reconnect.Connect "match-mock-id"] WebSocketService.fresh) =
       [WebSocketService.NewWebSocket
          "ws://localhost:8000/api/chat/ws/match-mock-id?token=mock-token-12345";
        WebSocketService.ConsoleLog "WebSocket connected";
        WebSocketService.SocketClose
          "ws://localhost:8000/api/chat/ws/match-mock-id?token=mock-token-12345";
        WebSocketService.NewWebSocket
          "ws://localhost:8000/api/chat/ws/match-mock-id?token=mock-token-12345"].
Proof. split; reflexivity. Qed.

(** C5 (as amended): whatever the frame, [socket.onmessage] returns
    normally and leaves the service (its socket included) as it was.  The
    frame is logged when [JSON.parse] throws on it or when it parses to
    [null]; a frame that parses to another value whose [type] is not a
    string is dropped with no log line; a frame whose [type] is a string goes
    to the handlers registered under that string, whatever the rest of the
    payload (to none, with no log line, when none is registered), and is
    logged only when one of them throws. *)
Theorem malformed_frame_dropped_logged_or_silent
    (JSON_parse : string -> option WebSocketService.JSValue)
    (throws : WebSocketService.MessageHandler -> WebSocketService.JSValue -> bool)
    (s : WebSocketService.Service) (raw : string) :
  WebSocketService.onmessage JSON_parse throws s raw =
    (s,
     match JSON_parse raw with
     | None =>
         [WebSocketService.ConsoleError "Failed to parse WebSocket message:"]
     | Some v =>
         match WebSocketService.get_type v with
         | None =>
             [WebSocketService.ConsoleError "Failed to parse WebSocket message:"]
         | Some (WebSocketService.JStr t) =>
             match WebSocketService.handlers s !! t with
             | None | Some [] => []
             | Some hs =>
                 (fst (WebSocketService.call_all throws hs v)
                  ++ (if snd (WebSocketService.call_all throws hs v)
                      then [WebSocketService.ConsoleError
                              "Failed to parse WebSocket message:"]
                      else []))%list
             end
         | Some _ => []
         end
     end,
     WebSocketService.Returned).
Proof.
  unfold WebSocketService.onmessage, WebSocketService.onmessage_try.
  destruct (JSON_parse raw) as [v|]; [|done].
  destruct (WebSocketService.get_type v) as [[| | | |t| |]|]; try done.
  unfold WebSocketService.emit.
  destruct (WebSocketService.handlers s !! t) as [[|h hs]|]; try done.
  by destruct (WebSocketService.call_all throws (h :: hs) v).
Qed.

(** C5, as stated, fails: on a connected service with a handler registered,
    the frames [{}] and [42], which are JSON but no envelope, are dropped
    with nothing logged. *)
Lemma non_envelope_dropped_without_log_counterexample :
  MoreSamples.plain_parse "{}" = Some (WebSocketService.JObj [])
  /\ WebSocketService.onmessage MoreSamples.plain_parse (fun _ _ => false)
       MoreSamples.connected "{}" =
       (MoreSamples.connected, [], WebSocketService.Returned)
  /\ WebSocketService.onmessage MoreSamples.plain_parse (fun _ _ => false)
       MoreSamples.connected "42" =
       (MoreSamples.connected, [], WebSocketService.Returned)
  /\ ~ In (WebSocketService.ConsoleError "Failed to parse WebSocket message:")
          (snd (fst (WebSocketService.onmessage MoreSamples.plain_parse
                       (fun _ _ => false) MoreSamples.connected "{}"))).
Proof.
  split; [reflexivity|]. split; [reflexivity|]. split; [reflexivity|].
  by intros [].
Qed.

(** ** Incoming chat messages *)
Section Chat.
Import BlindChat.

Lemma handleNewMessage_other (userId : option string) (m : Message)
    (prev : list Message) :
  Some (sender_id m) <> userId ->
  handleNewMessage userId m prev = (prev ++ [received m])%list.
Proof.
  intros Hne. unfold handleNewMessage. by rewrite bool_decide_eq_false_2.
Qed.

Lemma handleNewMessage_own (userId : option string) (m : Message)
    (prev : list Message) :
  Some (sender_id m) = userId -> handleNewMessage userId m prev = prev.
Proof.
  intros Heq. unfold handleNewMessage. by rewrite bool_decide_eq_true_2.
Qed.

Lemma snoc_neq (prev : list Message) (m : Message) : (prev ++ [m])%list <> prev.
Proof.
  intros Heq. apply (f_equal length) in Heq.
  rewrite length_app in Heq. simpl in Heq. lia.
Qed.
End Chat.

(** C6: an incoming 'message' event is appended to the conversation (marked
    as not mine) if and only if its [sender_id] differs from the local
    [userId]; an event of the local user leaves the conversation as it is. *)
Theorem own_message_event_not_appended
    (userId : option string) (m : BlindChat.Message)
    (prev : list BlindChat.Message) :
  (BlindChat.handleNewMessage userId m prev =
     (prev ++ [BlindChat.received m])%list
   <-> Some (BlindChat.sender_id m) <> userId)
  /\ (BlindChat.handleNewMessage userId m prev = prev
      <-> Some (BlindChat.sender_id m) = userId).
Proof.
  destruct (decide (Some (BlindChat.sender_id m) = userId)) as [Heq|Hne].
  - rewrite (handleNewMessage_own _ _ _ Heq). split; split; try done.
    intros Hsnoc. symmetry in Hsnoc. by apply snoc_neq in Hsnoc.
  - rewrite (handleNewMessage_other _ _ _ Hne). split; split; try done.
    intros Hsnoc. by apply snoc_neq in Hsnoc.
Qed.

(** C7 (as amended): the receiver does not deduplicate.  Each delivery of a
    message event from the other participant appends one more entry, so the
    same event delivered twice leaves the entry twice, and the list is two
    longer than before. *)
Theorem redelivery_appends_again
    (userId : option string) (m : BlindChat.Message)
    (prev : list BlindChat.Message) :
  Some (BlindChat.sender_id m) <> userId ->
  BlindChat.handleNewMessage userId m (BlindChat.handleNewMessage userId m prev) =
    (BlindChat.handleNewMessage userId m prev ++ [BlindChat.received m])%list
  /\ BlindChat.handleNewMessage userId m (BlindChat.handleNewMessage userId m prev) =
       (prev ++ [BlindChat.received m; BlindChat.received m])%list
  /\ length (BlindChat.handleNewMessage userId m
               (BlindChat.handleNewMessage userId m prev)) = (length prev + 2)%nat.
Proof.
  intros Hne. rewrite !(handleNewMessage_other _ _ _ Hne).
  rewrite <- app_assoc. simpl. split; [done|]. split; [done|].
  rewrite length_app. simpl. lia.
Qed.

Lemma redelivery_appends_again_witness :
  BlindChat.handleNewMessage (Some "user-mock-id") Samples.hello
    (BlindChat.handleNewMessage (Some "user-mock-id") Samples.hello []) =
    (BlindChat.handleNewMessage (Some "user-mock-id") Samples.hello []
       ++ [BlindChat.received Samples.hello])%list
  /\ BlindChat.handleNewMessage (Some "user-mock-id") Samples.hello
       (BlindChat.handleNewMessage (Some "user-mock-id") Samples.hello []) =
       [BlindChat.received Samples.hello; BlindChat.received Samples.hello]
  /\ length (BlindChat.handleNewMessage (Some "user-mock-id") Samples.hello
               (BlindChat.handleNewMessage (Some "user-mock-id") Samples.hello []))
     = 2%nat.
Proof.
  apply (redelivery_appends_again (Some "user-mock-id") Samples.hello []).
  discriminate.
Defined.

(** C7, as stated, fails: the same event of the other participant delivered
    twice leaves two entries, not the one entry a single delivery leaves. *)
Lemma redelivery_duplicates_counterexample :
  BlindChat.handleNewMessage (Some "user-mock-id") Samples.hello [] =
    [BlindChat.received Samples.hello]
  /\ BlindChat.handleNewMessage (Some "user-mock-id") Samples.hello
       (BlindChat.handleNewMessage (Some "user-mock-id") Samples.hello []) =
       [BlindChat.received Samples.hello; BlindChat.received Samples.hello]
  /\ BlindChat.handleNewMessage (Some "user-mock-id") Samples.hello
       (BlindChat.handleNewMessage (Some "user-mock-id") Samples.hello []) <>
     BlindChat.handleNewMessage (Some "user-mock-id") Samples.hello [].
Proof. split; [reflexivity|]. split; [reflexivity|]. discriminate. Qed.

(** ** The user store *)
Section Store.
Import UserStore.

Lemma getItem_deleteItem (k k' : string) (d : Device) :
  getItem k (deleteItem k' d) = if decide (k' = k) then None else getItem k d.
Proof.
  unfold getItem, deleteItem. destruct (OS d); simpl; apply lookup_delete.
Qed.
End Store.

(** C10: after [logout] the store's token, userId, status and currentMatchId
    are all null, and none of the four keys 'token', 'userId', 'status',
    'currentMatchId' is left in the storage of the platform. *)
Theorem logout_clears_session (d : UserStore.Device) (st : UserStore.UserState) :
  UserStore.token (snd (UserStore.logout (d, st))) = None
  /\ UserStore.userId (snd (UserStore.logout (d, st))) = None
  /\ UserStore.status (snd (UserStore.logout (d, st))) = None
  /\ UserStore.currentMatchId (snd (UserStore.logout (d, st))) = None
  /\ UserStore.getItem "token" (fst (UserStore.logout (d, st))) = None
  /\ UserStore.getItem "userId" (fst (UserStore.logout (d, st))) = None
  /\ UserStore.getItem "status" (fst (UserStore.logout (d, st))) = None
  /\ UserStore.getItem "currentMatchId" (fst (UserStore.logout (d, st))) = None.
Proof.
  unfold UserStore.logout; cbn [fst snd].
  repeat split; rewrite !getItem_deleteItem; by repeat case_decide.
Qed.

(** * Further properties of the client *)

(** ** The user store and its storage *)
Section StoreMore.
Import UserStore StoreRun.

Lemma getItem_setItem (k k' v : string) (d : Device) :
  getItem k (setItem k' v d) = if decide (k' = k) then Some v else getItem k d.
Proof.
  unfold getItem, setItem. destruct (OS d); simpl; apply lookup_insert.
Qed.

Lemma mirrored_fields (d : Device) (s : UserState) :
  mirrored (d, s) <->
  getItem "token" d = token s /\ getItem "userId" d = userId s
  /\ getItem "status" d = status s
  /\ getItem "currentMatchId" d = currentMatchId s.
Proof.
  unfold mirrored. destruct s as [t u st m]; simpl. split.
  - intros [= -> -> -> ->]. done.
  - intros (-> & -> & -> & ->). done.
Qed.

Ltac store_lookup :=
  rewrite ?getItem_setItem, ?getItem_deleteItem; repeat case_decide; try done.

Lemma act_mirrored (a : Action) (w : Device * UserState) :
  proper a -> mirrored w -> mirrored (act a w).
Proof.
  destruct w as [d s]. intros Hproper (Ht & Hu & Hst & Hm)%mirrored_fields.
  destruct a as [t u st|st|[m|]| |]; simpl in *.
  - apply mirrored_fields; simpl. repeat split; store_lookup.
  - apply mirrored_fields; simpl. repeat split; store_lookup.
  - apply mirrored_fields; simpl.
    assert (truthy m = true) as -> by (by destruct m).
    repeat split; store_lookup.
  - apply mirrored_fields; simpl. repeat split; store_lookup.
  - apply mirrored_fields; simpl. repeat split; store_lookup.
  - by apply mirrored_fields.
Qed.

Lemma setStatusText_setStatus (st : UserStatus) (w : Device * UserState) :
  setStatusText (status_string st) w = setStatus st w.
Proof. by destruct w. Qed.

Lemma loadFromStorage_mirrored (w : Device * UserState) :
  mirrored (loadFromStorage w).
Proof. by destruct w as [d s]; apply mirrored_fields. Qed.
End StoreMore.

(** X1: once the store has been loaded from storage, every sequence of store
    actions (with match ids that are non-empty or null) keeps store and
    storage in step: a restart would read back exactly the current token,
    user id, status and match id. *)
Theorem store_stays_mirrored
    (actions : list StoreRun.Action)
    (w : UserStore.Device * UserStore.UserState) :
  Forall StoreRun.proper actions ->
  StoreRun.mirrored (StoreRun.acts actions (UserStore.loadFromStorage w)).
Proof.
  intros Hproper. unfold StoreRun.acts.
  generalize (loadFromStorage_mirrored w).
  generalize (UserStore.loadFromStorage w). clear w.
  induction Hproper as [|a actions Ha _ IH]; intros w Hw; [done|].
  simpl. apply IH. by apply act_mirrored.
Qed.

Lemma store_stays_mirrored_witness :
  StoreRun.mirrored
    (StoreRun.acts
       [StoreRun.SetAuth "mock-token-12345" "user-mock-id" UserStore.onboarding;
        StoreRun.SetStatus UserStore.active;
        StoreRun.SetCurrentMatch (Some "match-mock-id");
        StoreRun.SetStatus UserStore.in_chat;
        StoreRun.SetCurrentMatch None;
        StoreRun.Logout]
       (UserStore.loadFromStorage
          ({| UserStore.OS := UserStore.Native;
              UserStore.localStorage := ∅;
              UserStore.secureStore := {[ "token" := "stale" ]} |},
           UserStore.initial))).
Proof.
  apply store_stays_mirrored.
  repeat constructor. discriminate.
Defined.

(** X2: a session does not survive [logout]: loading from storage afterwards
    gives the empty store, whatever was stored, and the only keys [logout]
    touches are its four. *)
Theorem logout_then_load_is_signed_out
    (w : UserStore.Device * UserStore.UserState) (k : string) :
  snd (UserStore.loadFromStorage (UserStore.logout w)) = UserStore.initial
  /\ UserStore.getItem k (fst (UserStore.logout w)) =
       if bool_decide (k ∈ ["token"; "userId"; "status"; "currentMatchId"])
       then None else UserStore.getItem k (fst w).
Proof.
  destruct w as [d s]. unfold UserStore.logout, UserStore.loadFromStorage.
  cbn [fst snd]. split.
  - unfold UserStore.initial. f_equal; rewrite !getItem_deleteItem;
      by repeat case_decide.
  - rewrite !getItem_deleteItem.
    destruct (bool_decide_reflect
                (k ∈ ["token"; "userId"; "status"; "currentMatchId"])) as [Hk|Hk].
    + rewrite !elem_of_cons, elem_of_nil in Hk.
      destruct Hk as [->|[->|[->|[->|[]]]]]; by repeat case_decide.
    + rewrite !elem_of_cons, elem_of_nil in Hk.
      repeat case_decide; try done; exfalso; apply Hk; subst k; tauto.
Qed.

(** X3: the route [getInitialRoute] names for the store as the store
    actions leave it.  On the initial store, where every launch starts, and
    after [logout] it is the sign-in screen.  After [setAuth] with a
    non-empty token it is the onboarding chat for status 'onboarding', the
    waiting screen for 'active' and 'in_chat', and the sign-in screen for
    'paused'; a later [setStatus] moves it to the route of the new status,
    and [setCurrentMatch] does not change it. *)
Theorem initial_route_of_session
    (t u : string) (st st' : UserStore.UserStatus) (m : option string)
    (w : UserStore.Device * UserStore.UserState) :
  t <> "" ->
  App.getInitialRoute UserStore.initial = App.Auth
  /\ App.getInitialRoute (snd (UserStore.setAuth t u st w)) =
       match st with
       | UserStore.onboarding => App.OnboardingChat
       | UserStore.active | UserStore.in_chat => App.Waiting
       | UserStore.paused => App.Auth
       end
  /\ App.getInitialRoute
       (snd (UserStore.setStatus st' (UserStore.setAuth t u st w))) =
       match st' with
       | UserStore.onboarding => App.OnboardingChat
       | UserStore.active | UserStore.in_chat => App.Waiting
       | UserStore.paused => App.Auth
       end
  /\ App.getInitialRoute
       (snd (UserStore.setCurrentMatch m (UserStore.setAuth t u st w))) =
       App.getInitialRoute (snd (UserStore.setAuth t u st w))
  /\ App.getInitialRoute
       (snd (UserStore.logout (UserStore.setAuth t u st w))) = App.Auth.
Proof.
  intros Ht. destruct w as [d s].
  assert (truthy t = true) as Htruthy by (by destruct t).
  unfold App.getInitialRoute. cbn.
  split; [done|].
  split; [destruct st; simpl; by rewrite Htruthy|].
  split; [destruct st'; simpl; by rewrite Htruthy|].
  done.
Qed.

Lemma initial_route_of_session_witness :
  App.getInitialRoute
    (snd (UserStore.setAuth "mock-token-12345" "user-mock-id"
            UserStore.onboarding
            ({| UserStore.OS := UserStore.Web;
                UserStore.localStorage := ∅;
                UserStore.secureStore := ∅ |}, UserStore.initial))) =
    App.OnboardingChat
  /\ App.getInitialRoute
       (snd (UserStore.setStatus UserStore.in_chat
               (UserStore.setAuth "mock-token-12345" "user-mock-id"
                  UserStore.onboarding
                  ({| UserStore.OS := UserStore.Web;
                      UserStore.localStorage := ∅;
                      UserStore.secureStore := ∅ |}, UserStore.initial)))) =
     App.Waiting
  /\ App.getInitialRoute
       (snd (UserStore.logout
               (UserStore.setAuth "mock-token-12345" "user-mock-id"
                  UserStore.onboarding
                  ({| UserStore.OS := UserStore.Web;
                      UserStore.localStorage := ∅;
                      UserStore.secureStore := ∅ |}, UserStore.initial)))) =
     App.Auth.
Proof.
  assert (Ht : "mock-token-12345" <> "") by discriminate.
  destruct (initial_route_of_session "mock-token-12345" "user-mock-id"
              UserStore.onboarding UserStore.in_chat None
              ({| UserStore.OS := UserStore.Web;
                  UserStore.localStorage := ∅;
                  UserStore.secureStore := ∅ |}, UserStore.initial) Ht)
    as (_ & Hauth & Hstatus & _ & Hout).
  split; [exact Hauth|]. split; [exact Hstatus|exact Hout].
Defined.

(** ** The mock's onboarding conversation *)
Section MockMore.
Import Mock.

Lemma sendOnboardingMessage_reply (text : string) (i : nat) :
  exists d reply,
    sendOnboardingMessage text i = (Data d, S i)
    /\ message d = Some reply
    /\ reply ∈ MOCK_AI_RESPONSES /\ truthy reply = true
    /\ (profile_complete d = true <-> 6 <= i)%nat
    /\ (is_Some (extracted_data d) <-> 6 <= i)%nat.
Proof.
  unfold sendOnboardingMessage.
  destruct (decide (i < 6)%nat) as [Hlt|Hge].
  - do 6 (destruct i as [|i];
          [eexists _, _; split; [reflexivity|]; simpl;
           split; [reflexivity|]; split; [set_solver|]; split; [done|];
           split; (split; [try done; by intros [? ?]|lia])|]).
    lia.
  - replace (i `min` (length MOCK_AI_RESPONSES - 1))%nat with 6%nat
      by (simpl; lia).
    assert ((length MOCK_AI_RESPONSES - 1 <=? i)%nat = true) as ->
      by (apply Nat.leb_le; simpl; lia).
    eexists _, _; split; [reflexivity|]. simpl.
    split; [reflexivity|]. split; [set_solver|]. split; [done|].
    split; (split; [lia|eauto]).
Qed.

End MockMore.



(** X5: the mock's onboarding progress never exceeds 100, never goes down as
    the conversation goes on, and is reported completed exactly when the
    progress is 100, which is from seven calls on; so the call that reports
    the profile complete is exactly a call after which the progress is
    complete. *)
Theorem mock_progress_bounded_and_monotone (text : string) (i j : nat) :
  exists p q d,
    Mock.getOnboardingProgress i = Data p
    /\ Mock.getOnboardingProgress j = Data q
    /\ fst (Mock.sendOnboardingMessage text i) = Data d
    /\ (Mock.progress p <= 100)%nat
    /\ ((i <= j)%nat -> (Mock.progress p <= Mock.progress q)%nat)
    /\ (Mock.completed p = true <-> Mock.progress p = 100%nat)
    /\ (Mock.completed p = true <-> 7 <= i)%nat
    /\ (Mock.profile_complete d = true <->
        Mock.getOnboardingProgress (snd (Mock.sendOnboardingMessage text i)) =
          Data {| Mock.progress := 100;
                  Mock.messages_count := S i * 2;
                  Mock.completed := true |}).
Proof.
  destruct (sendOnboardingMessage_reply text i) as (d & reply & Heq & _ & _ & _ & Hd & _).
  eexists _, _, d. split; [reflexivity|]. split; [reflexivity|].
  rewrite Heq. cbn [fst snd]. split; [reflexivity|].
  unfold Mock.getOnboardingProgress; cbn [Mock.progress Mock.completed].
  change (length Mock.MOCK_AI_RESPONSES) with 7%nat.
  split; [lia|]. split; [lia|].
  split; [rewrite Nat.leb_le; lia|]. split; [by rewrite Nat.leb_le|].
  rewrite Hd. split.
  - intros Hi. f_equal. f_equal; [lia|by apply Nat.leb_le; lia].
  - intros [= Hp _]. lia.
Qed.

(** X6: for every value of [Math.random()] (at least 0 and below 1) the
    mock's [getAISuggestion] answers with one of its four suggestions, never
    with an undefined one. *)
Theorem mock_suggestion_always_defined (matchId : string) (random : Q) :
  (0 <= random)%Q -> (random < 1)%Q ->
  exists suggestion,
    Mock.getAISuggestion matchId random = Data (Some suggestion)
    /\ suggestion ∈ Mock.suggestions.
Proof.
  intros H0 H1. unfold Mock.getAISuggestion, Mock.at_index.
  change (length Mock.suggestions) with 4%nat.
  set (i := Qfloor (random * inject_Z (Z.of_nat 4))).
  assert (0 <= i < 4)%Z as [Hlo Hhi].
  { subst i. split.
    - apply Qfloor_ge_iff. revert H0.
      unfold Qle, Qmult, inject_Z; simpl. lia.
    - apply Z.nle_gt. intros Hge. apply Qfloor_ge_iff in Hge. revert Hge H1.
      unfold Qle, Qlt, Qmult, inject_Z; simpl. lia. }
  destruct (Z.ltb_spec i 0); [lia|].
  destruct (lookup_lt_is_Some_2 Mock.suggestions (Z.to_nat i)) as [x Hx].
  { simpl. lia. }
  exists x. split; [by rewrite Hx|]. by eapply list_elem_of_lookup_2.
Qed.

Lemma mock_suggestion_always_defined_witness :
  exists suggestion,
    Mock.getAISuggestion "match-mock-id" (999 # 1000) = Data (Some suggestion)
    /\ suggestion ∈ Mock.suggestions.
Proof.
  apply mock_suggestion_always_defined; reflexivity || discriminate.
Defined.

(** ** Signing in and onboarding *)

(** X7: on the sign-in screen an empty code is refused by the screen itself
    ('Please enter a code'), without a call of the API, so the mock's own
    'Please enter an OTP' is never shown; every other code signs the user
    in: one call, the mock token, user id and status 'onboarding' in the
    store and in storage, no error, and the onboarding chat as the next
    screen. *)
Theorem sign_in_accepts_any_code
    (be : Api.Backend) (s : AuthScreen.Screen)
    (w : UserStore.Device * UserStore.UserState) :
  if (String.length (AuthScreen.otp s) =? 0)%nat
  then
    AuthScreen.api_calls (AuthScreen.handleVerifyOTP be s w) = 0%nat
    /\ AuthScreen.world (AuthScreen.handleVerifyOTP be s w) = w
    /\ AuthScreen.navigated (AuthScreen.handleVerifyOTP be s w) = None
    /\ AuthScreen.error (AuthScreen.screen (AuthScreen.handleVerifyOTP be s w)) =
         "Please enter a code"
  else
    AuthScreen.api_calls (AuthScreen.handleVerifyOTP be s w) = 1%nat
    /\ AuthScreen.navigated (AuthScreen.handleVerifyOTP be s w) =
         Some App.OnboardingChat
    /\ AuthScreen.error (AuthScreen.screen (AuthScreen.handleVerifyOTP be s w)) = ""
    /\ snd (AuthScreen.world (AuthScreen.handleVerifyOTP be s w)) =
         {| UserStore.token := Some "mock-token-12345";
            UserStore.userId := Some "user-mock-id";
            UserStore.status := Some "onboarding";
            UserStore.currentMatchId := UserStore.currentMatchId (snd w) |}
    /\ UserStore.getItem "token"
         (fst (AuthScreen.world (AuthScreen.handleVerifyOTP be s w))) =
         Some "mock-token-12345"
    /\ UserStore.getItem "userId"
         (fst (AuthScreen.world (AuthScreen.handleVerifyOTP be s w))) =
         Some "user-mock-id"
    /\ UserStore.getItem "status"
         (fst (AuthScreen.world (AuthScreen.handleVerifyOTP be s w))) =
         Some "onboarding".
Proof.
  unfold AuthScreen.handleVerifyOTP.
  destruct (AuthScreen.otp s) as [|c code] eqn:Hotp; cbn [String.length Nat.eqb].
  - done.
  - unfold Api.verifyOTP, Api.USE_MOCK_API, MockApi.verifyOTP.
    cbn [truthy String.eqb negb andb String.length Nat.ltb Nat.leb].
    destruct w as [d st]. cbn.
    repeat split; try done; by rewrite !getItem_setItem.
Qed.

Section OnboardingMore.
Import OnboardingChat.
Variable real : ApiResponse Mock.OnboardingReply.
Variable trim : string -> string.

(** The texts that get sent: those with something left after trimming. *)
Let sent (turns : list (string * Z * Z)) : nat :=
  length (filter (fun t : string * Z * Z => Is_true (truthy (trim t.1.1))) turns).

Lemma api_reply (text : string) (i : nat) :
  exists d reply,
    ApiRest.sendOnboardingMessage real text i = (Data d, S i)
    /\ reply_text (Data d) = Some reply
    /\ (Mock.profile_complete d = true <-> 6 <= i)%nat.
Proof.
  destruct (sendOnboardingMessage_reply text i)
    as (d & reply & Heq & Hm & _ & Ht & Hd & _).
  exists d, reply. split; [exact Heq|]. split; [|done].
  unfold reply_text. by rewrite Hm, Ht.
Qed.

Lemma send_step (text : string) (now later : Z) (w : World) :
  loading (screen w) = false ->
  truthy (trim text) = true ->
  exists d reply,
    type_and_send real trim text now later w =
      {| screen :=
           {| messages :=
                ((messages (screen w)
                  ++ [{| id := pretty now; role := user; content := trim text |}])
                 ++ [{| id := pretty (later + 1)%Z; role := assistant;
                        content := reply |}])%list;
              inputText := ""; loading := false;
              initialLoading := initialLoading (screen w) |};
         conversationIndex := S (conversationIndex w);
         store := if Mock.profile_complete d
                  then StoreRun.setStatusText "active" (store w) else store w;
         leaving := if Mock.profile_complete d then S (leaving w) else leaving w |}
    /\ (Mock.profile_complete d = true <-> 6 <= conversationIndex w)%nat.
Proof.
  intros Hload Htext. unfold type_and_send, sendMessage.
  cbn [screen inputText loading conversationIndex messages store leaving
       initialLoading content].
  rewrite Hload, Htext. cbn [negb orb].
  destruct (api_reply (trim text) (conversationIndex w))
    as (d & reply & -> & -> & Hd).
  by exists d, reply.
Qed.

Lemma blank_step (text : string) (now later : Z) (w : World) :
  truthy (trim text) = false ->
  exists s,
    type_and_send real trim text now later w =
      {| screen := s; conversationIndex := conversationIndex w;
         store := store w; leaving := leaving w |}
    /\ messages s = messages (screen w) /\ loading s = loading (screen w).
Proof.
  intros Htext. unfold type_and_send, sendMessage.
  cbn [screen inputText loading]. rewrite Htext. cbn [negb orb].
  eexists; split; [reflexivity|]. done.
Qed.

Lemma turns_from (turns : list (string * Z * Z)) : forall w : World,
  loading (screen w) = false ->
  exists w',
    foldl (fun w '(text, now, later) => type_and_send real trim text now later w)
          w turns = w'
    /\ conversationIndex w' = (conversationIndex w + sent turns)%nat
    /\ length (messages (screen w')) =
         (length (messages (screen w)) + 2 * sent turns)%nat
    /\ leaving w' = (leaving w + (sent turns - (6 - conversationIndex w)))%nat
    /\ UserStore.status (snd (store w')) =
         (if decide (6 - conversationIndex w < sent turns)%nat
          then Some "active" else UserStore.status (snd (store w)))
    /\ UserStore.token (snd (store w')) = UserStore.token (snd (store w)).
Proof.
  induction turns as [|[[text now] later] turns IH]; intros w Hload.
  - exists w. unfold sent. simpl. repeat split; try done; lia.
  - cbn [foldl]. unfold sent in *. rewrite filter_cons. cbn [fst].
    destruct (truthy (trim text)) eqn:Htext.
    + rewrite decide_True by done. cbn [length].
      destruct (send_step text now later w Hload Htext) as (d & reply & -> & Hd).
      match goal with
      | |- context [foldl _ ?w1 turns] =>
          destruct (IH w1 eq_refl) as (w' & -> & H2 & H3 & H4 & H5 & H6)
      end.
      clear IH.
      cbn [screen loading conversationIndex messages store leaving] in *.
      exists w'. split; [done|]. split; [lia|].
      split; [rewrite H3, !length_app; simpl; lia|].
      destruct (Mock.profile_complete d) eqn:Hdone.
      * assert (6 <= conversationIndex w)%nat by by apply Hd.
        split; [lia|]. split.
        -- rewrite H5. destruct (store w) as [dev st]. simpl.
           repeat case_decide; try done; lia.
        -- rewrite H6. by destruct (store w).
      * assert (~ (6 <= conversationIndex w)%nat)
          by (intros Hge; by apply Hd in Hge).
        split; [lia|]. split; [|done].
        rewrite H5. repeat case_decide; try done; lia.
    + rewrite decide_False by (by intros []).
      destruct (blank_step text now later w Htext) as (s & -> & Hs1 & Hs2).
      match goal with
      | |- context [foldl _ ?w1 turns] =>
          destruct (IH w1) as (w' & -> & H2 & H3 & H4 & H5 & H6)
      end.
      { simpl. by rewrite Hs2. }
      cbn [screen loading conversationIndex messages store leaving] in *.
      exists w'. rewrite Hs1 in H3. done.
Qed.
End OnboardingMore.

(** X8: an onboarding session against the mock.  After the screen has
    mounted and the user has sent [n] non-blank texts (blank ones are not
    sent), the chat holds 1 + 2n messages and the mock has been called
    1 + n times; counting the mock's calls before the session as [i], the
    screen has set the status 'active' and armed its move to the waiting
    screen exactly for the sends after the first 5 - i, so from a fresh mock
    the onboarding ends with the sixth text.  The token is untouched. *)
Theorem onboarding_session_completes
    (real : ApiResponse Mock.OnboardingReply) (trim : string -> string)
    (turns : list (string * Z * Z)) (w : OnboardingChat.World) :
  let n := length (filter (fun t : string * Z * Z =>
                             Is_true (truthy (trim t.1.1))) turns) in
  let i := OnboardingChat.conversationIndex w in
  let w' := OnboardingChat.session real trim turns w in
  OnboardingChat.conversationIndex w' = (i + 1 + n)%nat
  /\ length (OnboardingChat.messages (OnboardingChat.screen w')) = (1 + 2 * n)%nat
  /\ OnboardingChat.leaving w' = (OnboardingChat.leaving w + (n - (5 - i)))%nat
  /\ UserStore.status (snd (OnboardingChat.store w')) =
       (if decide (5 - i < n)%nat then Some "active"
        else UserStore.status (snd (OnboardingChat.store w)))
  /\ UserStore.token (snd (OnboardingChat.store w')) =
       UserStore.token (snd (OnboardingChat.store w)).
Proof.
  intros n i w'. subst w'. unfold OnboardingChat.session.
  destruct (api_reply real "" (OnboardingChat.conversationIndex w))
    as (d & reply & Heq & Hreply & _).
  unfold OnboardingChat.startConversation. rewrite Heq, Hreply.
  match goal with
  | |- context [foldl _ ?w1 turns] =>
      destruct (turns_from real trim turns w1 eq_refl)
        as (w' & -> & H2 & H3 & H4 & H5 & H6)
  end.
  cbn [OnboardingChat.screen OnboardingChat.loading
       OnboardingChat.conversationIndex OnboardingChat.messages
       OnboardingChat.store OnboardingChat.leaving] in *.
  fold n in H2, H3, H4, H5. fold i in H2, H4, H5.
  split; [lia|]. split; [rewrite H3; simpl; lia|].
  split; [lia|]. split; [|done].
  rewrite H5. repeat case_decide; try done; lia.
Qed.

(** ** Handlers of the WebSocket service *)
Section HandlersMore.
Import WebSocketService.

Lemma remove_first_fresh (h : MessageHandler) (hs : list MessageHandler) :
  h ∉ hs -> remove_first h hs = hs.
Proof.
  induction hs as [|h' hs IH]; [done|]. intros Hnot.
  apply not_elem_of_cons in Hnot as [Hne Hnot]. simpl.
  destruct (Nat.eqb_spec h h'); [done|]. by rewrite IH.
Qed.



Lemma on_handlers (type : string) (h : MessageHandler) (s : Service) :
  handlers (on type h s) !! type =
    Some (default [] (handlers s !! type) ++ [h])%list.
Proof. unfold on. simpl. apply lookup_insert_eq. Qed.

Section Dispatch.
Variable JSON_parse : string -> option JSValue.
Variable throws : MessageHandler -> JSValue -> bool.

Lemma call_all_quiet (hs : list MessageHandler) (v : JSValue) :
  Forall (fun h => throws h v = false) hs ->
  call_all throws hs v = (map (fun h => CallHandler h v) hs, false).
Proof.
  induction 1 as [|h hs Hh _ IH]; [done|].
  simpl. by rewrite Hh, IH.
Qed.

Lemma call_all_stops (before after : list MessageHandler)
    (h : MessageHandler) (v : JSValue) :
  Forall (fun h => throws h v = false) before ->
  throws h v = true ->
  call_all throws (before ++ h :: after) v =
    (map (fun h => CallHandler h v) (before ++ [h]), true).
Proof.
  intros Hbefore Hh.
  induction Hbefore as [|h' before Hh' _ IH]; simpl.
  - by rewrite Hh.
  - by rewrite Hh', IH.
Qed.

Lemma onmessage_envelope (s : Service) (raw t : string) (v : JSValue) :
  JSON_parse raw = Some v ->
  get_type v = Some (JStr t) ->
  onmessage JSON_parse throws s raw =
    (s,
     (fst (call_all throws (default [] (handlers s !! t)) v)
      ++ (if snd (call_all throws (default [] (handlers s !! t)) v)
          then [ConsoleError "Failed to parse WebSocket message:"] else []))%list,
     Returned).
Proof.
  intros Hparse Htype. unfold onmessage, onmessage_try.
  rewrite Hparse, Htype. unfold emit.
  destruct (handlers s !! t) as [hs|]; simpl; [|done].
  by destruct (call_all throws hs v).
Qed.
End Dispatch.

Lemma registered_handlers (type : string) (h : MessageHandler) (s : Service)
    (n : nat) :
  default [] (handlers (Nat.iter n (on type h) s) !! type) =
    (default [] (handlers s !! type) ++ repeat h n)%list.
Proof.
  induction n as [|n IH].
  - simpl. by rewrite app_nil_r.
  - rewrite Nat.iter_succ, on_handlers, IH. cbn [default].
    rewrite <- app_assoc. f_equal.
    change [h] with (repeat h 1). rewrite <- repeat_app.
    by replace (n + 1)%nat with (S n) by lia.
Qed.
End HandlersMore.



(** X10: [off] for a handler that is not registered for the type changes
    nothing at all in the service. *)
Theorem off_unregistered_is_noop
    (type : string) (h : WebSocketService.MessageHandler)
    (s : WebSocketService.Service) :
  h ∉ default [] (WebSocketService.handlers s !! type) ->
  WebSocketService.off type h s = s.
Proof.
  intros Hfresh. unfold WebSocketService.off.
  destruct (WebSocketService.handlers s !! type) as [hs|] eqn:Hhs; [|done].
  simpl in Hfresh. rewrite remove_first_fresh by done.
  rewrite insert_id by done. by destruct s.
Qed.

Lemma off_unregistered_is_noop_witness :
  WebSocketService.off "message" 4%nat MoreSamples.listening =
    MoreSamples.listening.
Proof.
  apply off_unregistered_is_noop.
  vm_compute. intros Hin.
  repeat (apply elem_of_cons in Hin as [Hin|Hin]; [discriminate|]).
  by apply elem_of_nil in Hin.
Defined.

(** X11: a frame that parses to an envelope whose type is a string reaches
    exactly the handlers registered for that type, each once per
    registration and in the order of registration; when none of them throws
    nothing is logged, the service is unchanged and handlers of other types
    are not called. *)
Theorem frame_reaches_handlers_in_order
    (JSON_parse : string -> option WebSocketService.JSValue)
    (throws : WebSocketService.MessageHandler -> WebSocketService.JSValue -> bool)
    (s : WebSocketService.Service) (raw t : string)
    (v : WebSocketService.JSValue) :
  JSON_parse raw = Some v ->
  WebSocketService.get_type v = Some (WebSocketService.JStr t) ->
  Forall (fun h => throws h v = false)
         (default [] (WebSocketService.handlers s !! t)) ->
  WebSocketService.onmessage JSON_parse throws s raw =
    (s,
     map (fun h => WebSocketService.CallHandler h v)
         (default [] (WebSocketService.handlers s !! t)),
     WebSocketService.Returned).
Proof.
  intros Hparse Htype Hquiet.
  rewrite (onmessage_envelope _ _ _ _ _ _ Hparse Htype).
  rewrite call_all_quiet by done. simpl. by rewrite app_nil_r.
Qed.

Lemma frame_reaches_handlers_in_order_witness :
  WebSocketService.onmessage MoreSamples.frame_parse (fun _ _ => false)
    MoreSamples.listening "frame" =
    (MoreSamples.listening,
     [WebSocketService.CallHandler 1%nat MoreSamples.message_frame;
      WebSocketService.CallHandler 2%nat MoreSamples.message_frame;
      WebSocketService.CallHandler 3%nat MoreSamples.message_frame],
     WebSocketService.Returned).
Proof.
  apply (frame_reaches_handlers_in_order MoreSamples.frame_parse
           (fun _ _ => false) MoreSamples.listening "frame" "message"
           MoreSamples.message_frame); [reflexivity..|].
  vm_compute. repeat constructor.
Defined.

(** X12: when a handler throws, the handlers registered after it for the
    same type are not called for that frame, and the frame is logged once,
    as a message that failed to parse; the socket handler still returns and
    the service is unchanged. *)
Theorem throwing_handler_stops_dispatch
    (JSON_parse : string -> option WebSocketService.JSValue)
    (throws : WebSocketService.MessageHandler -> WebSocketService.JSValue -> bool)
    (s : WebSocketService.Service) (raw t : string)
    (v : WebSocketService.JSValue)
    (before after : list WebSocketService.MessageHandler)
    (h : WebSocketService.MessageHandler) :
  JSON_parse raw = Some v ->
  WebSocketService.get_type v = Some (WebSocketService.JStr t) ->
  WebSocketService.handlers s !! t = Some (before ++ h :: after)%list ->
  Forall (fun h => throws h v = false) before ->
  throws h v = true ->
  WebSocketService.onmessage JSON_parse throws s raw =
    (s,
     (map (fun h => WebSocketService.CallHandler h v) (before ++ [h])
      ++ [WebSocketService.ConsoleError "Failed to parse WebSocket message:"])%list,
     WebSocketService.Returned).
Proof.
  intros Hparse Htype Hhs Hbefore Hh.
  rewrite (onmessage_envelope _ _ _ _ _ _ Hparse Htype).
  rewrite Hhs. simpl. by rewrite call_all_stops.
Qed.

Lemma throwing_handler_stops_dispatch_witness :
  WebSocketService.onmessage MoreSamples.frame_parse
    (fun h _ => Nat.eqb h 2) MoreSamples.listening "frame" =
    (MoreSamples.listening,
     [WebSocketService.CallHandler 1%nat MoreSamples.message_frame;
      WebSocketService.CallHandler 2%nat MoreSamples.message_frame;
      WebSocketService.ConsoleError "Failed to parse WebSocket message:"],
     WebSocketService.Returned).
Proof.
  apply (throwing_handler_stops_dispatch MoreSamples.frame_parse
           (fun h _ => Nat.eqb h 2) MoreSamples.listening "frame" "message"
           MoreSamples.message_frame [1%nat] [3%nat] 2%nat);
    try reflexivity.
  repeat constructor.
Defined.

(** X13: handlers add up.  After the same handler has been registered [n]
    times for a type that had no handler (nothing removes a registration but
    [off]), every frame of that type on which the handler does not throw
    calls it [n] times; a frame on which it throws calls it once, and the
    one line 'Failed to parse WebSocket message:' is logged. *)
Theorem repeated_registration_repeats_calls
    (JSON_parse : string -> option WebSocketService.JSValue)
    (throws : WebSocketService.MessageHandler -> WebSocketService.JSValue -> bool)
    (s : WebSocketService.Service) (raw t : string)
    (v : WebSocketService.JSValue)
    (h : WebSocketService.MessageHandler) (n : nat) :
  JSON_parse raw = Some v ->
  WebSocketService.get_type v = Some (WebSocketService.JStr t) ->
  default [] (WebSocketService.handlers s !! t) = [] ->
  WebSocketService.onmessage JSON_parse throws
    (Nat.iter n (WebSocketService.on t h) s) raw =
    (Nat.iter n (WebSocketService.on t h) s,
     (if throws h v
      then match n with
           | O => []
           | S _ =>
               [WebSocketService.CallHandler h v;
                WebSocketService.ConsoleError "Failed to parse WebSocket message:"]
           end
      else repeat (WebSocketService.CallHandler h v) n),
     WebSocketService.Returned).
Proof.
  intros Hparse Htype Hnone.
  rewrite (onmessage_envelope _ throws _ _ _ _ Hparse Htype).
  rewrite registered_handlers, Hnone. cbn [app].
  destruct (throws h v) eqn:Hh.
  - destruct n as [|n]; [done|]. simpl. by rewrite Hh.
  - rewrite call_all_quiet.
    + simpl. by rewrite app_nil_r, map_repeat.
    + clear -Hh. induction n as [|n IH]; by constructor.
Qed.

Lemma repeated_registration_repeats_calls_witness :
  WebSocketService.onmessage MoreSamples.frame_parse (fun _ _ => false)
    (Nat.iter 3 (WebSocketService.on "message" 9%nat) WebSocketService.fresh)
    "frame" =
    (Nat.iter 3 (WebSocketService.on "message" 9%nat) WebSocketService.fresh,
     [WebSocketService.CallHandler 9%nat MoreSamples.message_frame;
      WebSocketService.CallHandler 9%nat MoreSamples.message_frame;
      WebSocketService.CallHandler 9%nat MoreSamples.message_frame],
     WebSocketService.Returned)
  /\ WebSocketService.onmessage MoreSamples.frame_parse (fun _ _ => true)
       (Nat.iter 3 (WebSocketService.on "message" 9%nat) WebSocketService.fresh)
       "frame" =
     (Nat.iter 3 (WebSocketService.on "message" 9%nat) WebSocketService.fresh,
      [WebSocketService.CallHandler 9%nat MoreSamples.message_frame;
       WebSocketService.ConsoleError "Failed to parse WebSocket message:"],
      WebSocketService.Returned).
Proof.
  split.
  - apply (repeated_registration_repeats_calls MoreSamples.frame_parse
             (fun _ _ => false) WebSocketService.fresh "frame" "message"
             MoreSamples.message_frame 9%nat 3); reflexivity.
  - apply (repeated_registration_repeats_calls MoreSamples.frame_parse
             (fun _ _ => true) WebSocketService.fresh "frame" "message"
             MoreSamples.message_frame 9%nat 3); reflexivity.
Defined.

(** X14: a manual [disconnect] skips the backoff.  Whatever the service was
    doing, after [disconnect] it has no socket; the close event of the
    dropped socket only writes its console line, a reconnect timer that
    fires afterwards does nothing, and [send] sends nothing. *)
Theorem disconnect_skips_backoff
    (env : WebSocketService.Env) (s : WebSocketService.Service)
    (type : string) (data : WebSocketService.JSValue) :
  WebSocketService.socket (fst (WebSocketService.disconnect s)) = None
  /\ WebSocketService.onclose (fst (WebSocketService.disconnect s)) =
       (fst (WebSocketService.disconnect s),
        [WebSocketService.ConsoleLog "WebSocket disconnected"])
  /\ WebSocketService.reconnect_timer env (fst (WebSocketService.disconnect s)) =
       (fst (WebSocketService.disconnect s), [])
  /\ WebSocketService.send type data (fst (WebSocketService.disconnect s)) =
       (fst (WebSocketService.disconnect s), [])
  /\ WebSocketService.handlers (fst (WebSocketService.disconnect s)) =
       WebSocketService.handlers s.
Proof.
  split; [done|]. split; [|done].
  unfold WebSocketService.onclose.
  by rewrite attemptReconnect_unbound.
Qed.

(** ** The bands of the compatibility meter *)

(** X15: the four bands of the meter.  For every double, NaN included, label
    and colour go together: 'Keep chatting' with gray, 'Getting warmer' with
    orange, 'Great connection' with purple, 'Ready to reveal!' with green.
    The band changes between the adjacent doubles 0.39499999999999996 and
    0.395, 0.5949999999999999 and 0.595, 0.7949999999999998 and
    0.7949999999999999; a NaN score shows 'Keep chatting'. *)
Theorem meter_bands (score : float) :
  (CompatibilityMeter.getColor score = "#6B7280" <->
     CompatibilityMeter.getLabel score = "Keep chatting")
  /\ (CompatibilityMeter.getColor score = "#F59E0B" <->
      CompatibilityMeter.getLabel score = "Getting warmer")
  /\ (CompatibilityMeter.getColor score = "#8B5CF6" <->
      CompatibilityMeter.getLabel score = "Great connection")
  /\ (CompatibilityMeter.getColor score = "#10B981" <->
      CompatibilityMeter.getLabel score = "Ready to reveal!")
  /\ (CompatibilityMeter.getLabel 0.39499999999999996,
      CompatibilityMeter.getLabel 0.395) = ("Keep chatting", "Getting warmer")
  /\ (CompatibilityMeter.getLabel 0.5949999999999999,
      CompatibilityMeter.getLabel 0.595) = ("Getting warmer", "Great connection")
  /\ (CompatibilityMeter.getLabel 0.7949999999999998,
      CompatibilityMeter.getLabel 0.7949999999999999) =
       ("Great connection", "Ready to reveal!")
  /\ CompatibilityMeter.getLabel nan = "Keep chatting".
Proof.
  unfold CompatibilityMeter.getLabel at 1 2 3 4,
         CompatibilityMeter.getColor.
  destruct (80 <=? CompatibilityMeter.percentage score)%float;
  destruct (60 <=? CompatibilityMeter.percentage score)%float;
  destruct (40 <=? CompatibilityMeter.percentage score)%float;
    by repeat split.
Qed.

(** ** Sending in the blind chat *)
Section SendMore.
Import BlindChat BlindChatSend.

Lemma replace_fresh (now_ms : Z) (data : Message) (l : list Message) :
  Forall (fun m => id m <> temp_id now_ms) l ->
  map (fun m => if String.eqb (id m) (temp_id now_ms) then mine data else m) l = l.
Proof.
  induction 1 as [|m l Hm _ IH]; [done|]. simpl. rewrite IH.
  by destruct (String.eqb_spec (id m) (temp_id now_ms)).
Qed.
End SendMore.

(** X17: the optimistic send.  When a send starts, the typed text (trimmed)
    is appended at once as a message of mine under a temporary id.  If no
    older message carries that id, a successful answer replaces exactly that
    entry by the server's message, marked as mine; a failed answer leaves the
    temporary entry in the list.  Either way the list keeps its length and
    sending is over. *)
Theorem optimistic_send_is_replaced_or_kept
    (trim : string -> string) (userId : string) (now_ms : Z) (now : string)
    (s started : BlindChatSend.Screen) (data : BlindChat.Message)
    (failure : string) :
  BlindChatSend.send_begin trim userId now_ms now s = Some started ->
  Forall (fun m => BlindChat.id m <> BlindChatSend.temp_id now_ms)
         (BlindChatSend.messages s) ->
  BlindChatSend.messages started =
    (BlindChatSend.messages s
     ++ [{| BlindChat.id := BlindChatSend.temp_id now_ms;
            BlindChat.sender_id := userId;
            BlindChat.content := trim (BlindChatSend.inputText s);
            BlindChat.created_at := now;
            BlindChat.is_mine := true |}])%list
  /\ BlindChatSend.messages
       (BlindChatSend.send_end now_ms (Data data) started) =
       (BlindChatSend.messages s ++ [BlindChatSend.mine data])%list
  /\ BlindChatSend.messages
       (BlindChatSend.send_end now_ms (Error failure) started) =
       BlindChatSend.messages started
  /\ BlindChatSend.sending
       (BlindChatSend.send_end now_ms (Data data) started) = false
  /\ BlindChatSend.sending
       (BlindChatSend.send_end now_ms (Error failure) started) = false.
Proof.
  intros Hbegin Hfresh. unfold BlindChatSend.send_begin in Hbegin.
  destruct (_ || _); [discriminate|]. injection Hbegin as <-.
  cbn [BlindChatSend.send_end BlindChatSend.messages BlindChatSend.sending].
  split; [done|]. split; [|done].
  rewrite map_app, replace_fresh by done. simpl.
  by rewrite String.eqb_refl.
Qed.

Lemma optimistic_send_is_replaced_or_kept_witness :
  BlindChatSend.messages
    {| BlindChatSend.messages :=
         [BlindChat.received Samples.hello;
          {| BlindChat.id := BlindChatSend.temp_id 1700000000000;
             BlindChat.sender_id := "user-mock-id";
             BlindChat.content := "On my way";
             BlindChat.created_at := "2024-01-01T00:05:00.000Z";
             BlindChat.is_mine := true |}];
       BlindChatSend.inputText := "";
       BlindChatSend.sending := true;
       BlindChatSend.compatibility := 65 # 100 |} =
    (BlindChatSend.messages MoreSamples.chatting
     ++ [{| BlindChat.id := BlindChatSend.temp_id 1700000000000;
            BlindChat.sender_id := "user-mock-id";
            BlindChat.content := "On my way";
            BlindChat.created_at := "2024-01-01T00:05:00.000Z";
            BlindChat.is_mine := true |}])%list
  /\ BlindChatSend.messages
       (BlindChatSend.send_end 1700000000000
          (Data (BlindChat.received Samples.hello))
          {| BlindChatSend.messages :=
               [BlindChat.received Samples.hello;
                {| BlindChat.id := BlindChatSend.temp_id 1700000000000;
                   BlindChat.sender_id := "user-mock-id";
                   BlindChat.content := "On my way";
                   BlindChat.created_at := "2024-01-01T00:05:00.000Z";
                   BlindChat.is_mine := true |}];
             BlindChatSend.inputText := "";
             BlindChatSend.sending := true;
             BlindChatSend.compatibility := 65 # 100 |}) =
       (BlindChatSend.messages MoreSamples.chatting
        ++ [BlindChatSend.mine (BlindChat.received Samples.hello)])%list
  /\ BlindChatSend.messages
       (BlindChatSend.send_end 1700000000000 (Error "Network error")
          {| BlindChatSend.messages :=
               [BlindChat.received Samples.hello;
                {| BlindChat.id := BlindChatSend.temp_id 1700000000000;
                   BlindChat.sender_id := "user-mock-id";
                   BlindChat.content := "On my way";
                   BlindChat.created_at := "2024-01-01T00:05:00.000Z";
                   BlindChat.is_mine := true |}];
             BlindChatSend.inputText := "";
             BlindChatSend.sending := true;
             BlindChatSend.compatibility := 65 # 100 |}) =
       [BlindChat.received Samples.hello;
        {| BlindChat.id := BlindChatSend.temp_id 1700000000000;
           BlindChat.sender_id := "user-mock-id";
           BlindChat.content := "On my way";
           BlindChat.created_at := "2024-01-01T00:05:00.000Z";
           BlindChat.is_mine := true |}]
  /\ BlindChatSend.sending
       (BlindChatSend.send_end 1700000000000
          (Data (BlindChat.received Samples.hello))
          {| BlindChatSend.messages :=
               [BlindChat.received Samples.hello;
                {| BlindChat.id := BlindChatSend.temp_id 1700000000000;
                   BlindChat.sender_id := "user-mock-id";
                   BlindChat.content := "On my way";
                   BlindChat.created_at := "2024-01-01T00:05:00.000Z";
                   BlindChat.is_mine := true |}];
             BlindChatSend.inputText := "";
             BlindChatSend.sending := true;
             BlindChatSend.compatibility := 65 # 100 |}) = false
  /\ BlindChatSend.sending
       (BlindChatSend.send_end 1700000000000 (Error "Network error")
          {| BlindChatSend.messages :=
               [BlindChat.received Samples.hello;
                {| BlindChat.id := BlindChatSend.temp_id 1700000000000;
                   BlindChat.sender_id := "user-mock-id";
                   BlindChat.content := "On my way";
                   BlindChat.created_at := "2024-01-01T00:05:00.000Z";
                   BlindChat.is_mine := true |}];
             BlindChatSend.inputText := "";
             BlindChatSend.sending := true;
             BlindChatSend.compatibility := 65 # 100 |}) = false.
Proof.
  apply (optimistic_send_is_replaced_or_kept (fun text => text) "user-mock-id"
           1700000000000 "2024-01-01T00:05:00.000Z" MoreSamples.chatting).
  - reflexivity.
  - repeat constructor. vm_compute. discriminate.
Defined.



(** ** The end of a match, on the store *)

(** X19: what [handleResult] of the reveal screen does to the store, for
    every status text.  On 'continued' it goes back to the blind chat of the
    match and leaves store and storage untouched.  On every other status it
    goes to the waiting screen, and the user is 'active' again with no
    current match, in the store and in storage, while the token stays as it
    was, in both: the user remains signed in. *)
Theorem handleResult_on_store
    (matchId status : string) (w : UserStore.Device * UserStore.UserState) :
  if String.eqb status "continued"
  then
    RevealStore.navigations (ProfileReveal.handleResult matchId status) =
      [App.BlindChat matchId]
    /\ RevealStore.apply_all (ProfileReveal.handleResult matchId status) w = w
  else
    RevealStore.navigations (ProfileReveal.handleResult matchId status) =
      [App.Waiting]
    /\ UserStore.status
         (snd (RevealStore.apply_all
                 (ProfileReveal.handleResult matchId status) w)) = Some "active"
    /\ UserStore.currentMatchId
         (snd (RevealStore.apply_all
                 (ProfileReveal.handleResult matchId status) w)) = None
    /\ UserStore.getItem "status"
         (fst (RevealStore.apply_all
                 (ProfileReveal.handleResult matchId status) w)) = Some "active"
    /\ UserStore.getItem "currentMatchId"
         (fst (RevealStore.apply_all
                 (ProfileReveal.handleResult matchId status) w)) = None
    /\ UserStore.token
         (snd (RevealStore.apply_all
                 (ProfileReveal.handleResult matchId status) w)) =
       UserStore.token (snd w)
    /\ UserStore.getItem "token"
         (fst (RevealStore.apply_all
                 (ProfileReveal.handleResult matchId status) w)) =
       UserStore.getItem "token" (fst w).
Proof.
  unfold ProfileReveal.handleResult.
  destruct (String.eqb status "continued"); [done|].
  destruct w as [d s]. cbn.
  split; [done|]. split; [done|]. split; [done|].
  rewrite !getItem_deleteItem, !getItem_setItem.
  by repeat case_decide.
Qed.

(** ** Finding a match *)

(** X20: on the waiting screen, against the mock.  Looking for an existing
    match finds none and changes nothing; 'Find My Match' always finds the
    mock match: the store and the storage get the match id 'match-mock-id'
    and the status 'in_chat', the token is untouched, no error is shown and
    the screen moves to the blind chat of that match. *)
Theorem find_match_enters_chat
    (be : Api.Backend) (real : ApiResponse (string * option Mock.MockMatch))
    (now : string) (s : WaitingScreen.Screen)
    (w : UserStore.Device * UserStore.UserState) :
  WaitingScreen.checkExistingMatch (Api.getCurrentMatch be) s w =
    {| WaitingScreen.screen := s; WaitingScreen.world := w;
       WaitingScreen.navigated := None |}
  /\ WaitingScreen.navigated
       (WaitingScreen.findMatch (ApiRest.findMatch real now) s w) =
       Some (App.BlindChat "match-mock-id")
  /\ WaitingScreen.error
       (WaitingScreen.screen
          (WaitingScreen.findMatch (ApiRest.findMatch real now) s w)) = ""
  /\ snd (WaitingScreen.world
            (WaitingScreen.findMatch (ApiRest.findMatch real now) s w)) =
       {| UserStore.token := UserStore.token (snd w);
          UserStore.userId := UserStore.userId (snd w);
          UserStore.status := Some "in_chat";
          UserStore.currentMatchId := Some "match-mock-id" |}
  /\ UserStore.getItem "currentMatchId"
       (fst (WaitingScreen.world
               (WaitingScreen.findMatch (ApiRest.findMatch real now) s w))) =
       Some "match-mock-id"
  /\ UserStore.getItem "status"
       (fst (WaitingScreen.world
               (WaitingScreen.findMatch (ApiRest.findMatch real now) s w))) =
       Some "in_chat"
  /\ UserStore.getItem "token"
       (fst (WaitingScreen.world
               (WaitingScreen.findMatch (ApiRest.findMatch real now) s w))) =
       UserStore.getItem "token" (fst w).
Proof.
  destruct w as [d st]. split; [done|]. cbn.
  repeat split; rewrite ?getItem_setItem; by repeat case_decide.
Qed.

(** X21: the tip shown on the waiting screen always exists: after any number
    of ticks of the tip interval the index is the number of ticks modulo the
    six tips, so the read of [TIPS] is never out of range. *)
Theorem tip_always_defined (ticks : nat) :
  WaitingScreen.currentTip
    (Nat.iter ticks WaitingScreen.nextTip WaitingScreen.initial) =
    (ticks `mod` 6)%nat
  /\ is_Some (WaitingScreen.TIPS
              !! WaitingScreen.currentTip
                   (Nat.iter ticks WaitingScreen.nextTip WaitingScreen.initial)).
Proof.
  assert (Htip : WaitingScreen.currentTip
            (Nat.iter ticks WaitingScreen.nextTip WaitingScreen.initial) =
          (ticks `mod` 6)%nat).
  { induction ticks as [|ticks IH]; [done|].
    rewrite Nat.iter_succ. unfold WaitingScreen.nextTip at 1.
    cbn [WaitingScreen.currentTip]. rewrite IH.
    change (length WaitingScreen.TIPS) with 6%nat.
    rewrite Nat.Div0.add_mod_idemp_l. f_equal. lia. }
  split; [done|]. rewrite Htip. apply lookup_lt_is_Some_2.
  change (length WaitingScreen.TIPS) with 6%nat.
  apply Nat.mod_upper_bound. lia.
Qed.

(** ** Requests of the API service *)


(** X23: the headers of a request.  Headers given by the caller win; apart
    from those, the content type is JSON, and the Authorization header
    carries the bearer token exactly when the store holds a non-empty token
    (there is none for a signed-out user). *)
Theorem request_headers
    (token : option string) (options : gmap string string) (k : string) :
  ApiRest.headers token options !! k =
    match options !! k with
    | Some v => Some v
    | None =>
        if decide (k = "Authorization") then
          match token with
          | Some t => if decide (t = "") then None else Some ("Bearer " ++ t)
          | None => None
          end
        else if decide (k = "Content-Type") then Some "application/json"
        else None
    end.
Proof.
  unfold ApiRest.headers.
  rewrite !lookup_union.
  destruct (options !! k) as [v|] eqn:Hk.
  - rewrite union_Some_l. by rewrite union_Some_l.
  - rewrite (left_id None _).
    destruct token as [[|c t]|]; simpl.
    + rewrite lookup_empty, (left_id None _).
      rewrite lookup_singleton. repeat case_decide; by simplify_eq.
    + rewrite !lookup_singleton. repeat case_decide; by simplify_eq.
    + rewrite lookup_empty, (left_id None _).
      rewrite lookup_singleton. repeat case_decide; by simplify_eq.
Qed.
